(** * The study-block store of block-master-app

    A shallow embedding of [src/lib/study-storage.ts]: the block store
    ([loadBlocks], [createBlock], [updateBlock], [clearAll]), the conflict
    validator ([validateBlock]), the color assignment table
    ([getSubjectColor], [rebuildColorAssignments]) and the statistics
    aggregator ([getSubjectStats]), followed by the properties the
    specification states about them. *)

From Stdlib Require Import ZArith String Ascii List Bool Lia Floats.
From stdpp Require Import gmap strings list pretty.

Set Default Proof Using "Type".
Open Scope Z_scope.
Open Scope string_scope.

(** ** The fragment of JavaScript the store relies on *)

Module JS.

(** A [Date] object is its time value: a whole number of milliseconds
    since the epoch, or NaN for an Invalid Date ([None]).  Time values are
    bounded by 8.64e15 in magnitude, below 2^53, so they are integers
    that doubles represent exactly and [Z] compares them as JavaScript
    does. *)
Definition Date := option Z.

(** Relational operators on two dates compare the time values; every
    comparison with NaN is false. *)
Definition date_lt (a b : Date) : bool :=
  match a, b with
  | Some x, Some y => (x <? y)%Z
  | _, _ => false
  end.

Definition date_le (a b : Date) : bool :=
  match a, b with
  | Some x, Some y => (x <=? y)%Z
  | _, _ => false
  end.

Definition date_gt (a b : Date) : bool := date_lt b a.
Definition date_ge (a b : Date) : bool := date_le b a.

(** The double that holds an integer time value. *)
Definition float_of_Z (z : Z) : float :=
  match z with
  | Z0 => 0%float
  | Zpos p => PrimFloat.of_uint63 (Uint63.of_Z (Zpos p))
  | Zneg p => PrimFloat.opp (PrimFloat.of_uint63 (Uint63.of_Z (Zpos p)))
  end.

(** [date.getTime()] *)
Definition getTime (d : Date) : float :=
  match d with
  | Some z => float_of_Z z
  | None => nan
  end.

(** [current || 0] for [current : number | undefined]: undefined, NaN
    and both zeros are falsy. *)
Definition or_zero (current : option float) : float :=
  match current with
  | None => 0%float
  | Some x => if PrimFloat.is_nan x || PrimFloat.is_zero x then 0%float else x
  end.

(** A string is held as the bytes of an encoding of its code units that
    gives different strings different bytes (UTF-8, with a lone surrogate
    encoded like any other code point): two strings are [===] exactly
    when these sequences are equal, and only the empty string has none.  What [String.prototype] does to the
    characters ([toLowerCase], [trim]) belongs to the host, see
    [StudyStorage.Host]. *)

(** Truthiness of a string: only the empty string is falsy. *)
Definition truthy (s : string) : bool := negb (String.eqb s "").

(** [array.find(p)] *)
Fixpoint Array_find {A : Type} (p : A -> bool) (l : list A) : option A :=
  match l with
  | [] => None
  | x :: l' => if p x then Some x else Array_find p l'
  end.

(** [array.findIndex(p)]; [None] stands for -1. *)
Fixpoint Array_findIndex {A : Type} (p : A -> bool) (l : list A) : option nat :=
  match l with
  | [] => None
  | x :: l' => if p x then Some O else S <$> Array_findIndex p l'
  end.

End JS.

(** ** Computations that read and write the store and may throw *)

Module Eff.

Inductive Outcome (A : Type) : Type :=
| Returns (a : A)
| Throws (e : string).
Arguments Returns {A} a.
Arguments Throws {A} e.

Section Monad.
Context {St : Type}.

Definition M (A : Type) : Type := St -> Outcome A * St.

Definition ret {A} (a : A) : M A := fun st => (Returns a, st).

Definition throw {A} (e : string) : M A := fun st => (Throws e, st).

Definition bind {A B} (m : M A) (k : A -> M B) : M B :=
  fun st =>
    match m st with
    | (Returns a, st') => k a st'
    | (Throws e, st') => (Throws e, st')
    end.

(** [try { body } catch (error) { handler }]: the writes [body] made
    before it threw stay. *)
Definition try_catch {A} (body : M A) (handler : string -> M A) : M A :=
  fun st =>
    match body st with
    | (Returns a, st') => (Returns a, st')
    | (Throws e, st') => handler e st'
    end.

Definition gets {A} (f : St -> A) : M A := fun st => (Returns (f st), st).

Definition modify (f : St -> St) : M unit := fun st => (Returns tt, f st).

(** [array.forEach(f)]: stops at the first call that throws. *)
Fixpoint forEach {A} (f : A -> M unit) (l : list A) : M unit :=
  match l with
  | [] => ret tt
  | x :: l' => bind (f x) (fun _ => forEach f l')
  end.
End Monad.
Arguments M St A : clear implicits.

End Eff.

Notation "'let*' x ':=' m 'in' k" := (Eff.bind m (fun x => k))
  (at level 10, x name, m at level 100, k at level 200, only parsing).
Notation "m ';;' k" := (Eff.bind m (fun _ => k))
  (at level 100, k at level 200, right associativity, only parsing).

(** ** The data model and the operations of [StudyStorageManager] *)

Module StudyStorage.
Import JS Eff.

Inductive Priority : Type := normal | high.

Record StudyBlock : Type := mkStudyBlock {
  id : string;
  subject : string;
  description : option string;
  start : string;
  end_ : string;
  priority : Priority;
  color : string;
  createdAt : string;
  updatedAt : string;
}.

(** [Partial<StudyBlock>]: a field that is absent is [None].  The
    optional [description] can also be present and undefined. *)
Record PartialStudyBlock : Type := mkPartial {
  upd_id : option string;
  upd_subject : option string;
  upd_description : option (option string);
  upd_start : option string;
  upd_end : option string;
  upd_priority : option Priority;
  upd_color : option string;
  upd_createdAt : option string;
  upd_updatedAt : option string;
}.

(** What [createBlock] takes:
    [Omit<StudyBlock, 'id' | 'color' | 'createdAt' | 'updatedAt'>]. *)
Record BlockData : Type := mkBlockData {
  data_subject : string;
  data_description : option string;
  data_start : string;
  data_end : string;
  data_priority : Priority;
}.

Record ConflictError : Type := mkConflictError {
  message : string;
  conflictingBlock : StudyBlock;
}.

(** What [JSON.parse] yields, as far as [loadBlocks] looks at it: whether
    it is an array, and for the elements of an array, read at their
    declared type [StudyBlock], whether [block.subject.toLowerCase()]
    can be evaluated ([Block]) or raises a TypeError ([Malformed]: null,
    a number, an object without a string subject, ...). *)
Inductive Element : Type :=
| Block (block : StudyBlock)
| Malformed.

Inductive JSONValue : Type :=
| JNull
| JBoolean (b : bool)
| JNumber (n : float)
| JString (s : string)
| JObject
| JArray (elements : list Element).

(** The collaborators of the host environment. *)
Class Host : Type := {
  (** [new Date(s)] *)
  Date_parse : string -> Date;
  (** [date.toLocaleTimeString('en-US', {hour: 'numeric', minute:
      '2-digit', hour12: true})] *)
  toLocaleTimeString : Date -> string;
  (** [JSON.parse(text)]; [None] when it raises a SyntaxError, as it
      does on the empty text. *)
  JSON_parse : string -> option JSONValue;
  JSON_parse_empty : JSON_parse "" = None;
  (** [s.toLowerCase()] and [s.trim()], over all of Unicode: the case
      mapping of every letter, and the white space and line terminators
      the language defines (U+00A0, U+FEFF, U+2028, ... included). *)
  toLowerCase : string -> string;
  trim : string -> string;
}.

Definition STORAGE_KEY : string := "studyTimetable".

Definition SUBJECT_COLORS : list string :=
  [ "subject-blue"; "subject-green"; "subject-purple"; "subject-orange";
    "subject-pink"; "subject-teal"; "subject-indigo"; "subject-cyan";
    "subject-red"; "subject-yellow" ].

(** The state the manager reads and writes: its private
    [colorAssignments] map, the browser's [localStorage] and the lines
    written with [console.error]. *)
Record State : Type := mkState {
  colorAssignments : gmap string string;
  localStorage : gmap string string;
  console : list string;
}.

Definition set_colorAssignments (f : gmap string string -> gmap string string)
    (st : State) : State :=
  {| colorAssignments := f (colorAssignments st);
     localStorage := localStorage st;
     console := console st |}.

Definition set_localStorage (f : gmap string string -> gmap string string)
    (st : State) : State :=
  {| colorAssignments := colorAssignments st;
     localStorage := f (localStorage st);
     console := console st |}.

Definition console_error (line : string) : M State unit :=
  modify (fun st =>
    {| colorAssignments := colorAssignments st;
       localStorage := localStorage st;
       console := console st ++ [line] |}).

Section WithHost.
Context {host : Host}.

(** [subject.toLowerCase().trim()] *)
Definition normalize (subject : string) : string :=
  trim (toLowerCase subject).

(** [SUBJECT_COLORS.find(color => !usedColors.has(color)) || SUBJECT_COLORS[0]] *)
Definition availableColor (usedColors : gset string) : string :=
  match Array_find (fun color => negb (bool_decide (color ∈ usedColors))) SUBJECT_COLORS with
  | Some color => color
  | None => default "" (SUBJECT_COLORS !! 0%nat)
  end.

(** [getSubjectColor]: get or assign the color of a subject. *)
Definition getSubjectColor (subject : string) : M State string :=
  let normalizedSubject := normalize subject in
  let* assigned := gets (fun st => colorAssignments st !! normalizedSubject) in
  match assigned with
  | Some c => ret c
  | None =>
      let* usedColors := gets (fun st => map_img (colorAssignments st) : gset string) in
      modify (set_colorAssignments (insert normalizedSubject (availableColor usedColors))) ;;
      ret (availableColor usedColors)
  end.

(** The body of the loop of [rebuildColorAssignments]. *)
Definition recordColor (element : Element) : M State unit :=
  match element with
  | Malformed => throw "TypeError"
  | Block block =>
      let normalizedSubject := normalize (subject block) in
      let* has := gets (fun st => colorAssignments st !! normalizedSubject) in
      match has with
      | Some _ => ret tt
      | None => modify (set_colorAssignments (insert normalizedSubject (color block)))
      end
  end.

(** [rebuildColorAssignments] *)
Definition rebuildColorAssignments (blocks : list Element) : M State unit :=
  modify (set_colorAssignments (fun _ => ∅)) ;;
  forEach recordColor blocks.

Definition isArray (data : JSONValue) : bool :=
  match data with
  | JArray _ => true
  | _ => false
  end.

(** [Array.isArray(data) ? data : []] *)
Definition array_or_empty (data : JSONValue) : list Element :=
  match data with
  | JArray elements => elements
  | _ => []
  end.

(** [loadBlocks] *)
Definition loadBlocks : M State (list Element) :=
  try_catch
    (let* stored := gets (fun st => localStorage st !! STORAGE_KEY) in
     match stored with
     | None => ret []
     | Some text =>
         if negb (truthy text) then ret []
         else
           match JSON_parse text with
           | None => throw "SyntaxError"
           | Some data =>
               let blocks := array_or_empty data in
               rebuildColorAssignments blocks ;;
               ret blocks
           end
     end)
    (fun error =>
       console_error ("Failed to load study blocks: " ++ error) ;;
       ret []).

(** [createBlock]; [uuid] is what [uuidv4()] returns and [now] what
    [new Date().toISOString()] returns. *)
Definition createBlock (data : BlockData) (uuid now : string) : M State StudyBlock :=
  let* color := getSubjectColor (data_subject data) in
  ret {| subject := data_subject data;
         description := data_description data;
         start := data_start data;
         end_ := data_end data;
         priority := data_priority data;
         id := uuid;
         color := color;
         createdAt := now;
         updatedAt := now |}.

(** [{...currentBlock, ...updates}] *)
Definition spread (currentBlock : StudyBlock) (updates : PartialStudyBlock) : StudyBlock :=
  {| id := default (id currentBlock) (upd_id updates);
     subject := default (subject currentBlock) (upd_subject updates);
     description := default (description currentBlock) (upd_description updates);
     start := default (start currentBlock) (upd_start updates);
     end_ := default (end_ currentBlock) (upd_end updates);
     priority := default (priority currentBlock) (upd_priority updates);
     color := default (color currentBlock) (upd_color updates);
     createdAt := default (createdAt currentBlock) (upd_createdAt updates);
     updatedAt := default (updatedAt currentBlock) (upd_updatedAt updates) |}.

Definition with_id_updatedAt (b : StudyBlock) (id' now : string) : StudyBlock :=
  {| id := id';
     subject := subject b;
     description := description b;
     start := start b;
     end_ := end_ b;
     priority := priority b;
     color := color b;
     createdAt := createdAt b;
     updatedAt := now |}.

Definition with_color (b : StudyBlock) (c : string) : StudyBlock :=
  {| id := id b;
     subject := subject b;
     description := description b;
     start := start b;
     end_ := end_ b;
     priority := priority b;
     color := c;
     createdAt := createdAt b;
     updatedAt := updatedAt b |}.

(** [updates.subject && updates.subject !== currentBlock.subject]: the
    subject to resolve the color of, if the test passes. *)
Definition changed_subject (updates : PartialStudyBlock) (currentBlock : StudyBlock)
    : option string :=
  match upd_subject updates with
  | Some s =>
      if truthy s && negb (String.eqb s (subject currentBlock)) then Some s else None
  | None => None
  end.

(** [updateBlock]; [blocks !! blockIndex] is [blocks[blockIndex]], which
    is defined at the index [Array_findIndex] returns. *)
Definition updateBlock (blocks : list StudyBlock) (id' : string)
    (updates : PartialStudyBlock) (now : string) : M State StudyBlock :=
  match Array_findIndex (fun b => String.eqb (id b) id') blocks with
  | None => throw "Study block not found"
  | Some blockIndex =>
      match blocks !! blockIndex with
      | None => throw "TypeError"
      | Some currentBlock =>
          let updatedBlock := with_id_updatedAt (spread currentBlock updates) id' now in
          match changed_subject updates currentBlock with
          | Some s =>
              let* c := getSubjectColor s in
              ret (with_color updatedBlock c)
          | None => ret updatedBlock
          end
      end
  end.

(** [formatTime] *)
Definition formatTime (date : Date) : string := toLocaleTimeString date.

(** [existing.id === excludeId], with [excludeId] possibly undefined. *)
Definition is_excluded (existing : StudyBlock) (excludeId : option string) : bool :=
  match excludeId with
  | Some x => String.eqb (id existing) x
  | None => false
  end.

Definition range_message : string := "End time must be after start time".

Definition overlap_message (conflictingBlock : StudyBlock) : string :=
  let conflictStart := Date_parse (start conflictingBlock) in
  let conflictEnd := Date_parse (end_ conflictingBlock) in
  "This block overlaps with your " ++ subject conflictingBlock ++
  " session from " ++ formatTime conflictStart ++
  " to " ++ formatTime conflictEnd.

(** [validateBlock] *)
Definition validateBlock (block : StudyBlock) (existingBlocks : list StudyBlock)
    (excludeId : option string) : option ConflictError :=
  let start' := Date_parse (start block) in
  let end' := Date_parse (end_ block) in
  if date_le end' start' then
    Some {| message := range_message; conflictingBlock := block |}
  else
    let conflictingBlock :=
      Array_find (fun existing =>
        if is_excluded existing excludeId then false
        else
          let existingStart := Date_parse (start existing) in
          let existingEnd := Date_parse (end_ existing) in
          date_lt start' existingEnd && date_gt end' existingStart) existingBlocks in
    match conflictingBlock with
    | Some conflictingBlock =>
        Some {| message := overlap_message conflictingBlock;
                conflictingBlock := conflictingBlock |}
    | None => None
    end.

(** The body of the loop of [getSubjectStats]. *)
Definition addBlock (startDate endDate : Date) (stats : gmap string float)
    (block : StudyBlock) : gmap string float :=
  let blockStart := Date_parse (start block) in
  if date_ge blockStart startDate && date_le blockStart endDate then
    let duration :=
      PrimFloat.sub (getTime (Date_parse (end_ block)))
                    (getTime (Date_parse (start block))) in
    let hours := PrimFloat.div duration (1000 * 60 * 60)%float in
    let current := or_zero (stats !! subject block) in
    <[subject block := PrimFloat.add current hours]> stats
  else stats.

(** [getSubjectStats] *)
Definition getSubjectStats (blocks : list StudyBlock) (startDate endDate : Date)
    : gmap string float :=
  fold_left (addBlock startDate endDate) blocks ∅.

(** [clearAll] *)
Definition clearAll : M State unit :=
  modify (set_localStorage (delete STORAGE_KEY)) ;;
  modify (set_colorAssignments (fun _ => ∅)).

(** *** The vocabulary of the specification *)

(** Half-open overlap: [s1,e1) and [s2,e2) overlap iff [s1 < e2] and
    [e1 > s2]. *)
Definition overlaps (b existing : StudyBlock) : Prop :=
  exists s1 e1 s2 e2 : Z,
    Date_parse (start b) = Some s1 /\ Date_parse (end_ b) = Some e1 /\
    Date_parse (start existing) = Some s2 /\ Date_parse (end_ existing) = Some e2 /\
    s1 < e2 /\ e1 > s2.

(** One block ends at the instant the other starts. *)
Definition touches (b existing : StudyBlock) : Prop :=
  (exists t : Z, Date_parse (end_ existing) = Some t /\ Date_parse (start b) = Some t) \/
  (exists t : Z, Date_parse (end_ b) = Some t /\ Date_parse (start existing) = Some t).

(** An existing block the overlap scan reports: not the excluded one,
    and overlapping the candidate. *)
Definition conflicts_with (b : StudyBlock) (excludeId : option string)
    (existing : StudyBlock) : Prop :=
  Some (id existing) <> excludeId /\ overlaps b existing.

(** The start of the block is an instant of the window, both ends
    included. *)
Definition starts_within (startDate endDate : Date) (block : StudyBlock) : Prop :=
  exists t lo hi : Z,
    Date_parse (start block) = Some t /\ startDate = Some lo /\ endDate = Some hi /\
    lo <= t <= hi.

(** The test [getSubjectStats] makes on a block. *)
Definition in_window (startDate endDate : Date) (block : StudyBlock) : bool :=
  date_ge (Date_parse (start block)) startDate &&
  date_le (Date_parse (start block)) endDate.

(** The whole duration of a block, in hours. *)
Definition hours (block : StudyBlock) : float :=
  PrimFloat.div
    (PrimFloat.sub (getTime (Date_parse (end_ block))) (getTime (Date_parse (start block))))
    (1000 * 60 * 60)%float.

(** Adding a duration to the total of a subject, as the aggregator does
    it: [(current || 0) + hours]. *)
Definition add_hours (total : option float) (h : float) : option float :=
  Some (PrimFloat.add (or_zero total) h).

(** The durations added one after the other to a total that starts at
    0: the total in the words of the specification. *)
Definition sum_of_durations (durations : list float) : float :=
  fold_left PrimFloat.add durations 0%float.

(** A total that the next addition carries on from: every double but NaN
    and negative zero. *)
Definition carries_on (total : float) : bool :=
  match PrimFloat.classify total with
  | NaN | NZero => false
  | _ => true
  end.

(** The total so far as a number to add to: 0 when the subject has no
    total yet, and 0 instead of a total that is NaN (or negative zero). *)
Definition total_so_far (total : option float) : float :=
  match total with
  | Some t => if carries_on t then t else 0%float
  | None => 0%float
  end.

(** The total of a subject whose blocks in the window have these
    durations, with a total that is NaN taken as 0 by the next addition;
    a subject without a block has no total. *)
Definition total_of (durations : list float) : option float :=
  fold_left (fun total h => Some (PrimFloat.add (total_so_far total) h)) durations None.

(** The stored color of the first block whose normalized subject is [n]. *)
Definition first_color (blocks : list StudyBlock) (n : string) : option string :=
  color <$> Array_find (fun b => String.eqb (normalize (subject b)) n) blocks.

(** The blocks of a persisted array, up to its first malformed element. *)
Fixpoint blocks_before_malformed (elements : list Element) : list StudyBlock :=
  match elements with
  | Block b :: rest => b :: blocks_before_malformed rest
  | _ => []
  end.

Definition well_formed (elements : list Element) : bool :=
  forallb (fun e => match e with Block _ => true | Malformed => false end) elements.

(** [currentBlock] is the block [updateBlock] finds for [id']: the first
    one of the collection with that id, at index [i]. *)
Definition first_with_id (blocks : list StudyBlock) (id' : string) (i : nat)
    (currentBlock : StudyBlock) : Prop :=
  blocks !! i = Some currentBlock /\ id currentBlock = id' /\
  forall (j : nat) (b : StudyBlock), (j < i)%nat -> blocks !! j = Some b -> id b <> id'.

(** Resolving the colors of a sequence of subjects, as a run of
    [createBlock] and [updateBlock] calls does. *)
Definition resolve_all (subjects : list string) : M State unit :=
  forEach (fun s => getSubjectColor s ;; ret tt) subjects.

End WithHost.

(** A host for running the operations on examples: dates are written as
    their time value in decimal digits (anything else is an Invalid
    Date), the only texts that parse as JSON are a few fixed ones, and
    the strings are ASCII. *)
Module Example.

Definition digit (c : ascii) : option Z :=
  let n := nat_of_ascii c in
  if (Nat.leb 48 n && Nat.leb n 57)%bool then Some (Z.of_nat n - 48) else None.

Fixpoint digits (acc : Z) (s : string) : option Z :=
  match s with
  | EmptyString => Some acc
  | String c s' =>
      match digit c with
      | Some d => digits (10 * acc + d) s'
      | None => None
      end
  end.

Definition parse_ms (s : string) : Date :=
  match s with
  | EmptyString => None
  | _ => digits 0 s
  end.

Definition show_ms (d : Date) : string :=
  match d with
  | Some z => "t" ++ pretty z
  | None => "Invalid Date"
  end.

(** Lower case and trimming on ASCII text, where the host's functions
    do just this: A-Z become a-z, and the white space and line
    terminators of ASCII (codes 9 to 13 and 32) are removed at both
    ends.  The examples only use ASCII subjects. *)
Definition ascii_lowerChar (c : ascii) : ascii :=
  let n := nat_of_ascii c in
  if (Nat.leb 65 n && Nat.leb n 90)%bool then ascii_of_nat (n + 32) else c.

Fixpoint ascii_toLowerCase (s : string) : string :=
  match s with
  | EmptyString => EmptyString
  | String c s' => String (ascii_lowerChar c) (ascii_toLowerCase s')
  end.

Definition ascii_isWhiteSpace (c : ascii) : bool :=
  let n := nat_of_ascii c in
  (Nat.leb 9 n && Nat.leb n 13) || Nat.eqb n 32.

Fixpoint ascii_trimStart (s : string) : string :=
  match s with
  | EmptyString => EmptyString
  | String c s' => if ascii_isWhiteSpace c then ascii_trimStart s' else s
  end.

Fixpoint ascii_trimEnd (s : string) : string :=
  match s with
  | EmptyString => EmptyString
  | String c s' =>
      match ascii_trimEnd s' with
      | EmptyString => if ascii_isWhiteSpace c then EmptyString else String c EmptyString
      | r => String c r
      end
  end.

Definition ascii_trim (s : string) : string := ascii_trimEnd (ascii_trimStart s).

Definition math : StudyBlock :=
  {| id := "a"; subject := "Math"; description := None;
     start := "32400000"; end_ := "36000000"; priority := normal;
     color := "subject-red"; createdAt := "1"; updatedAt := "1" |}.

Definition physics : StudyBlock :=
  {| id := "b"; subject := "Physics"; description := Some "waves";
     start := "34200000"; end_ := "39600000"; priority := high;
     color := "subject-green"; createdAt := "2"; updatedAt := "2" |}.

(** Ends before it starts. *)
Definition backwards : StudyBlock :=
  {| id := "c"; subject := "History"; description := None;
     start := "36000000"; end_ := "32400000"; priority := normal;
     color := "subject-purple"; createdAt := "3"; updatedAt := "3" |}.

(** Its end is not a date. *)
Definition undated : StudyBlock :=
  {| id := "d"; subject := "Math"; description := None;
     start := "32400000"; end_ := "later"; priority := normal;
     color := "subject-red"; createdAt := "4"; updatedAt := "4" |}.

(** Starts at the instant [math] ends. *)
Definition chemistry : StudyBlock :=
  {| id := "e"; subject := "Chemistry"; description := None;
     start := "36000000"; end_ := "39600000"; priority := normal;
     color := "subject-purple"; createdAt := "5"; updatedAt := "5" |}.

(** The subject of [math] in lower case, for two hours. *)
Definition lower_math : StudyBlock :=
  {| id := "f"; subject := "math"; description := None;
     start := "39600000"; end_ := "46800000"; priority := normal;
     color := "subject-red"; createdAt := "6"; updatedAt := "6" |}.

Definition parse_json (text : string) : option JSONValue :=
  if String.eqb text "[]" then Some (JArray [])
  else if String.eqb text "{}" then Some JObject
  else if String.eqb text "7" then Some (JNumber 7%float)
  else if String.eqb text "null" then Some JNull
  else if String.eqb text "[math,physics]" then Some (JArray [Block math; Block physics])
  else if String.eqb text "[math,null]" then Some (JArray [Block math; Malformed])
  else None.

Definition host : Host :=
  {| Date_parse := parse_ms;
     toLocaleTimeString := show_ms;
     JSON_parse := parse_json;
     JSON_parse_empty := eq_refl;
     toLowerCase := ascii_toLowerCase;
     trim := ascii_trim |}.

Definition fresh : State :=
  {| colorAssignments := ∅; localStorage := ∅; console := [] |}.

(** Partial fields: new times; the subject in lower case; a creation
    date. *)
Definition retime : PartialStudyBlock :=
  {| upd_id := Some "z"; upd_subject := None; upd_description := None;
     upd_start := Some "39600000"; upd_end := Some "43200000"; upd_priority := None;
     upd_color := None; upd_createdAt := None; upd_updatedAt := None |}.

Definition rename_to_math : PartialStudyBlock :=
  {| upd_id := None; upd_subject := Some "math"; upd_description := None;
     upd_start := None; upd_end := None; upd_priority := None;
     upd_color := None; upd_createdAt := None; upd_updatedAt := None |}.

Definition backdate : PartialStudyBlock :=
  {| upd_id := None; upd_subject := None; upd_description := None;
     upd_start := None; upd_end := None; upd_priority := None;
     upd_color := None; upd_createdAt := Some "0"; upd_updatedAt := None |}.

(** A store whose table holds the color of [math], with nothing
    persisted. *)
Definition math_assigned : State :=
  {| colorAssignments := {[ "math" := "subject-red" ]}; localStorage := ∅; console := [] |}.

(** The same table, over persisted texts. *)
Definition persisted (text : string) : State :=
  {| colorAssignments := {[ "math" := "subject-red" ]};
     localStorage := {[ STORAGE_KEY := text ]};
     console := [] |}.

End Example.

End StudyStorage.

(** ** Writing the persisted blocks *)

Module Saving.
Import JS Eff StudyStorage.

(** The collaborators [saveBlocks] needs besides those of [Host]. *)
Class Writer : Type := {
  (** [JSON.stringify(blocks)] *)
  JSON_stringify : list StudyBlock -> string;
  (** Whether [localStorage.setItem(key, value)] raises on the given
      storage (the quota is exceeded); the storage is then left as it
      was. *)
  setItem_throws : gmap string string -> string -> string -> bool;
}.

Section WithWriter.
Context {writer : Writer}.

(** [localStorage.setItem(key, value)] *)
Definition setItem (key value : string) : M State unit :=
  fun st =>
    if setItem_throws (localStorage st) key value then (Throws "QuotaExceededError", st)
    else (Returns tt, set_localStorage (insert key value) st).

Definition save_error : string := "Failed to save data. Please try again.".

(** [saveBlocks] *)
Definition saveBlocks (blocks : list StudyBlock) : M State unit :=
  try_catch
    (setItem STORAGE_KEY (JSON_stringify blocks))
    (fun error =>
       console_error ("Failed to save study blocks: " ++ error) ;;
       throw save_error).

End WithWriter.

End Saving.

(** ** The handlers of the [StudyTimetable] component *)

Module Timetable.
Import JS Eff StudyStorage Saving.

(** A call of [toast]: the title is 'Success', or 'Error' with the
    destructive variant. *)
Inductive Toast : Type :=
| Success (text : string)
| Error (text : string).

(** What the form hands to the handlers: the fields of a block but [id],
    [color], [createdAt] and [updatedAt].  The optional [description] is
    absent ([None]) or present, possibly undefined ([Some None]). *)
Record Submitted : Type := mkSubmitted {
  sub_subject : string;
  sub_description : option (option string);
  sub_start : string;
  sub_end : string;
  sub_priority : Priority;
}.

(** The data read as the argument of [createBlock]. *)
Definition as_data (data : Submitted) : BlockData :=
  {| data_subject := sub_subject data;
     data_description := mjoin (sub_description data);
     data_start := sub_start data;
     data_end := sub_end data;
     data_priority := sub_priority data |}.

(** The data read as the partial fields of [updateBlock]. *)
Definition as_updates (data : Submitted) : PartialStudyBlock :=
  {| upd_id := None;
     upd_subject := Some (sub_subject data);
     upd_description := sub_description data;
     upd_start := Some (sub_start data);
     upd_end := Some (sub_end data);
     upd_priority := Some (sub_priority data);
     upd_color := None;
     upd_createdAt := None;
     upd_updatedAt := None |}.

(** The state of the component, the toasts it has shown, and the store it
    works on. *)
Record App : Type := mkApp {
  store : State;
  blocks : list StudyBlock;
  editingBlock : option StudyBlock;
  formError : option ConflictError;
  isFormOpen : bool;
  isLoading : bool;
  toasts : list Toast;
}.

Definition liftStore {A : Type} (m : M State A) : M App A :=
  fun app =>
    let '(r, st) := m (store app) in
    (r, {| store := st; blocks := blocks app; editingBlock := editingBlock app;
           formError := formError app; isFormOpen := isFormOpen app;
           isLoading := isLoading app; toasts := toasts app |}).

Definition setBlocks (newBlocks : list StudyBlock) : M App unit :=
  modify (fun app =>
    {| store := store app; blocks := newBlocks; editingBlock := editingBlock app;
       formError := formError app; isFormOpen := isFormOpen app;
       isLoading := isLoading app; toasts := toasts app |}).

Definition setEditingBlock (block : option StudyBlock) : M App unit :=
  modify (fun app =>
    {| store := store app; blocks := blocks app; editingBlock := block;
       formError := formError app; isFormOpen := isFormOpen app;
       isLoading := isLoading app; toasts := toasts app |}).

Definition setFormError (error : option ConflictError) : M App unit :=
  modify (fun app =>
    {| store := store app; blocks := blocks app; editingBlock := editingBlock app;
       formError := error; isFormOpen := isFormOpen app;
       isLoading := isLoading app; toasts := toasts app |}).

Definition setIsFormOpen (open : bool) : M App unit :=
  modify (fun app =>
    {| store := store app; blocks := blocks app; editingBlock := editingBlock app;
       formError := formError app; isFormOpen := open;
       isLoading := isLoading app; toasts := toasts app |}).

Definition setIsLoading (loading : bool) : M App unit :=
  modify (fun app =>
    {| store := store app; blocks := blocks app; editingBlock := editingBlock app;
       formError := formError app; isFormOpen := isFormOpen app;
       isLoading := loading; toasts := toasts app |}).

Definition toast (t : Toast) : M App unit :=
  modify (fun app =>
    {| store := store app; blocks := blocks app; editingBlock := editingBlock app;
       formError := formError app; isFormOpen := isFormOpen app;
       isLoading := isLoading app; toasts := toasts app ++ [t] |}).

(** [try { body } finally { finalizer }] *)
Definition try_finally {A : Type} (body : M App A) (finalizer : M App unit) : M App A :=
  fun app =>
    let '(r, app1) := body app in
    match finalizer app1 with
    | (Returns _, app2) => (r, app2)
    | (Throws e, app2) => (Throws e, app2)
    end.

(** [blocks.map(block => block.id === id ? updatedBlock : block)] *)
Definition replace_block (id' : string) (updatedBlock : StudyBlock)
    (collection : list StudyBlock) : list StudyBlock :=
  map (fun block => if String.eqb (id block) id' then updatedBlock else block) collection.

(** [blocks.filter(block => block.id !== id)] *)
Definition remove_block (id' : string) (collection : list StudyBlock) : list StudyBlock :=
  List.filter (fun block => negb (String.eqb (id block) id')) collection.

(** The array [loadBlocks] returned, at the type of the state. *)
Fixpoint as_blocks (elements : list Element) : list StudyBlock :=
  match elements with
  | [] => []
  | Block b :: rest => b :: as_blocks rest
  | Malformed :: rest => as_blocks rest
  end.

Section WithCollaborators.
Context {host : Host} {writer : Writer}.

(** The effect run on mount. *)
Definition mount : M App unit :=
  try_catch
    (let* loadedBlocks := liftStore loadBlocks in
     setBlocks (as_blocks loadedBlocks))
    (fun error =>
       toast (Error "Failed to load your study schedule. Please refresh the page.")).

(** The [saveBlocks] callback of the component. *)
Definition saveBlocks_callback (newBlocks : list StudyBlock) : M App unit :=
  try_catch
    (liftStore (saveBlocks newBlocks) ;;
     setBlocks newBlocks)
    (fun error =>
       toast (Error "Failed to save changes. Please try again.") ;;
       throw error).

(** [handleCreateBlock]; [uuid] and [now] are what [createBlock] draws. *)
Definition handleCreateBlock (data : Submitted) (uuid now : string) : M App unit :=
  let* blocks := gets blocks in
  setIsLoading true ;;
  setFormError None ;;
  try_finally
    (try_catch
       (let* newBlock := liftStore (createBlock (as_data data) uuid now) in
        match validateBlock newBlock blocks None with
        | Some conflict =>
            setFormError (Some conflict) ;;
            setIsLoading false
        | None =>
            let newBlocks := (blocks ++ [newBlock])%list in
            saveBlocks_callback newBlocks ;;
            setIsFormOpen false ;;
            setFormError None ;;
            toast (Success "Study block created successfully!")
        end)
       (fun error =>
          toast (Error "Failed to create study block. Please try again.")))
    (setIsLoading false).

(** [handleUpdateBlock]; [now] is what [updateBlock] draws. *)
Definition handleUpdateBlock (data : Submitted) (now : string) : M App unit :=
  let* blocks := gets blocks in
  let* editing := gets editingBlock in
  match editing with
  | None => ret tt
  | Some editingBlock =>
      setIsLoading true ;;
      setFormError None ;;
      try_finally
        (try_catch
           (let* updatedBlock :=
              liftStore (updateBlock blocks (id editingBlock) (as_updates data) now) in
            match validateBlock updatedBlock blocks (Some (id editingBlock)) with
            | Some conflict =>
                setFormError (Some conflict) ;;
                setIsLoading false
            | None =>
                let newBlocks := replace_block (id editingBlock) updatedBlock blocks in
                saveBlocks_callback newBlocks ;;
                setIsFormOpen false ;;
                setEditingBlock None ;;
                setFormError None ;;
                toast (Success "Study block updated successfully!")
            end)
           (fun error =>
              toast (Error "Failed to update study block. Please try again.")))
        (setIsLoading false)
  end.

(** [handleDeleteBlock] *)
Definition handleDeleteBlock (id' : string) : M App unit :=
  let* blocks := gets blocks in
  try_catch
    (let newBlocks := remove_block id' blocks in
     saveBlocks_callback newBlocks ;;
     toast (Success "Study block deleted successfully!"))
    (fun error =>
       toast (Error "Failed to delete study block. Please try again.")).

(** [openEditForm] *)
Definition openEditForm (block : StudyBlock) : M App unit :=
  setEditingBlock (Some block) ;;
  setFormError None ;;
  setIsFormOpen true.

(** [handleClearAll] *)
Definition handleClearAll : M App unit :=
  try_catch
    (liftStore clearAll ;;
     setBlocks [] ;;
     toast (Success "All study blocks have been cleared."))
    (fun error =>
       toast (Error "Failed to clear study blocks. Please try again.")).

(** No two blocks of the collection overlap. *)
Fixpoint overlap_free (collection : list StudyBlock) : Prop :=
  match collection with
  | [] => True
  | b :: rest => (forall e, e ∈ rest -> ~ overlaps b e) /\ overlap_free rest
  end.

End WithCollaborators.

(** No two blocks of the collection have the same id. *)
Definition unique_ids (collection : list StudyBlock) : Prop :=
  NoDup (id <$> collection).

End Timetable.

(** ** Time slots *)

Module DateUtils.

(** [text.padStart(2, '0')] *)
Definition padStart2 (text : string) : string :=
  match String.length text with
  | O => "00"
  | S O => "0" ++ text
  | _ => text
  end.

(** [`${hour.toString().padStart(2, '0')}:00`], for a whole number of
    hours. *)
Definition on_the_hour (hour : Z) : string := padStart2 (pretty hour) ++ ":00".

Definition half_past (hour : Z) : string := padStart2 (pretty hour) ++ ":30".

(** The loop of [getTimeSlots], with the number of turns it may still
    take. *)
Fixpoint slots_loop (turns : nat) (hour endHour : Z) (slots : list string) : list string :=
  match turns with
  | O => slots
  | S turns' =>
      if (hour <=? endHour)%Z then
        let slots := (slots ++ [on_the_hour hour])%list in
        let slots := if (hour <? endHour)%Z then (slots ++ [half_past hour])%list else slots in
        slots_loop turns' (hour + 1) endHour slots
      else slots
  end.

(** [Number.isSafeInteger]: the whole numbers up to 2^53 - 1 in
    magnitude; doubles hold them, and the number after each, exactly. *)
Definition isSafeInteger (n : Z) : bool :=
  (- (2 ^ 53 - 1) <=? n)%Z && (n <=? 2 ^ 53 - 1)%Z.

(** [getTimeSlots] on safe integers, where [hour++], [<=], [<] and
    [toString] on doubles are those of the integers, and the loop ends
    within [endHour - startHour + 1] turns.  Other arguments (fractions,
    NaN, infinities, whole numbers from 2^53 on, where [hour++] stops
    moving) are not covered: [None]. *)
Definition getTimeSlots (startHour endHour : Z) : option (list string) :=
  if isSafeInteger startHour && isSafeInteger endHour then
    Some (slots_loop (Z.to_nat (endHour - startHour + 1)) startHour endHour [])
  else None.

End DateUtils.

(** ** Further vocabulary *)

Module Derived.
Import JS Eff StudyStorage.

(** The color at place [k] of the palette, the first color past its end. *)
Definition paletteColor (k : nat) : string :=
  default "subject-blue" (SUBJECT_COLORS !! k).

(** The state after one more line of [console.error]. *)
Definition diagnostic (line : string) (st : State) : State :=
  {| colorAssignments := colorAssignments st;
     localStorage := localStorage st;
     console := console st ++ [line] |}.

End Derived.

(** ** Collaborators and data for running the added operations *)

Module Demo.
Import JS Eff StudyStorage Saving Timetable.

Definition block_name (b : StudyBlock) : string :=
  if String.eqb (id b) "a" then "math"
  else if String.eqb (id b) "b" then "physics"
  else "?".

(** [math] and [physics] are written as [Example.parse_json] reads them;
    a text of more than 15 characters exceeds the quota. *)
Definition writer : Writer :=
  {| JSON_stringify := fun blocks => "[" ++ String.concat "," (map block_name blocks) ++ "]";
     setItem_throws := fun _ _ value => Nat.ltb 15 (String.length value) |}.

(** The subject of [Example.math] in capitals with a space after it, and
    a color that is not the one of [Example.math]. *)
Definition shouted_math : StudyBlock :=
  {| id := "g"; subject := "MATH "; description := None;
     start := "43200000"; end_ := "46800000"; priority := normal;
     color := "subject-yellow"; createdAt := "7"; updatedAt := "7" |}.

(** The example host, reading one more text. *)
Definition parse_json (text : string) : option JSONValue :=
  if String.eqb text "[physics,math,MATH]" then
    Some (JArray [Block Example.physics; Block Example.math; Block shouted_math])
  else Example.parse_json text.

Definition host : Host :=
  {| Date_parse := Example.parse_ms;
     toLocaleTimeString := Example.show_ms;
     JSON_parse := parse_json;
     JSON_parse_empty := eq_refl;
     toLowerCase := Example.ascii_toLowerCase;
     trim := Example.ascii_trim |}.

(** What that text holds: [Example.math] comes before [shouted_math]. *)
Definition three_read : list Element :=
  [Block Example.physics; Block Example.math; Block shouted_math].

(** A table in which every color of the palette is in use. *)
Definition all_colors_used : State :=
  {| colorAssignments :=
       list_to_map
         [ ("s0", "subject-blue"); ("s1", "subject-green"); ("s2", "subject-purple");
           ("s3", "subject-orange"); ("s4", "subject-pink"); ("s5", "subject-teal");
           ("s6", "subject-indigo"); ("s7", "subject-cyan"); ("s8", "subject-red");
           ("s9", "subject-yellow") ];
     localStorage := ∅;
     console := [] |}.

(** The component showing [math] and [chemistry], which do not overlap,
    while [math] is being edited. *)
Definition tidy : App :=
  {| store :=
       {| colorAssignments := {[ "math" := "subject-red"; "chemistry" := "subject-purple" ]};
          localStorage := ∅;
          console := [] |};
     blocks := [Example.math; Example.chemistry];
     editingBlock := Some Example.math;
     formError := None;
     isFormOpen := true;
     isLoading := false;
     toasts := [] |}.

(** Physics from 11:00 to 12:00, after [chemistry]. *)
Definition physics_form : Submitted :=
  {| sub_subject := "Physics"; sub_description := Some None;
     sub_start := "39600000"; sub_end := "43200000"; sub_priority := normal |}.

(** Math moved to 08:00 to 09:00. *)
Definition earlier_form : Submitted :=
  {| sub_subject := "Math"; sub_description := Some (Some "algebra");
     sub_start := "28800000"; sub_end := "32400000"; sub_priority := high |}.

End Demo.

(** ** Properties *)

Import JS Eff StudyStorage.

(** *** Arrays *)

Section Arrays.
Context {A : Type}.
Implicit Types (p : A -> bool) (l : list A).

Lemma Array_find_Some p l x :
  Array_find p l = Some x ->
  exists i : nat,
    l !! i = Some x /\ p x = true /\
    forall (j : nat) (y : A), (j < i)%nat -> l !! j = Some y -> p y = false.
Proof.
  induction l as [|a l IH]; simpl; [discriminate|].
  destruct (p a) eqn:Hpa.
  - intros [= <-]. exists O. repeat split; auto. intros j y Hj. lia.
  - intros Hfind. destruct (IH Hfind) as (i & Hi & Hpx & Hbefore).
    exists (S i). repeat split; auto.
    intros [|j] y Hj; simpl.
    + intros [= <-]. exact Hpa.
    + apply Hbefore. lia.
Qed.

Lemma Array_find_None p l x :
  Array_find p l = None -> x ∈ l -> p x = false.
Proof.
  induction l as [|a l IH]; simpl; intros Hfind Hin.
  - inversion Hin.
  - destruct (p a) eqn:Hpa; [discriminate|].
    inversion Hin; subst; auto.
Qed.

Lemma Array_findIndex_Some p l i :
  Array_findIndex p l = Some i ->
  exists x : A,
    l !! i = Some x /\ p x = true /\
    forall (j : nat) (y : A), (j < i)%nat -> l !! j = Some y -> p y = false.
Proof.
  revert i. induction l as [|a l IH]; simpl; intros i; [discriminate|].
  destruct (p a) eqn:Hpa.
  - intros [= <-]. exists a. repeat split; auto. intros j y Hj. lia.
  - destruct (Array_findIndex p l) as [k|] eqn:Hk; simpl; [|discriminate].
    intros [= <-]. destruct (IH k eq_refl) as (x & Hx & Hpx & Hbefore).
    exists x. repeat split; auto.
    intros [|j] y Hj; simpl.
    + intros [= <-]. exact Hpa.
    + apply Hbefore. lia.
Qed.

Lemma Array_findIndex_None p l x :
  Array_findIndex p l = None -> x ∈ l -> p x = false.
Proof.
  induction l as [|a l IH]; simpl; intros Hfind Hin.
  - inversion Hin.
  - destruct (p a) eqn:Hpa; [discriminate|].
    destruct (Array_findIndex p l); [discriminate|].
    inversion Hin; subst; auto.
Qed.

(** The first element that satisfies [p] is the one [findIndex] finds. *)
Lemma Array_findIndex_first p l i x :
  l !! i = Some x -> p x = true ->
  (forall (j : nat) (y : A), (j < i)%nat -> l !! j = Some y -> p y = false) ->
  Array_findIndex p l = Some i.
Proof.
  revert i. induction l as [|a l IH]; intros i Hi Hpx Hbefore.
  - destruct i; discriminate.
  - simpl. destruct i as [|i]; simpl in Hi.
    + injection Hi as ->. now rewrite Hpx.
    + rewrite (Hbefore O a) by (simpl; auto; lia).
      rewrite (IH i Hi Hpx); [reflexivity|].
      intros j y Hj Hy. apply (Hbefore (S j) y); [lia|exact Hy].
Qed.
End Arrays.

(** *** The conflict validator *)

Section Validator.
Context {host : Host}.
Implicit Types (b existing : StudyBlock) (excludeId : option string).

Lemma is_excluded_true existing excludeId :
  is_excluded existing excludeId = true <-> excludeId = Some (id existing).
Proof.
  unfold is_excluded. destruct excludeId as [x|].
  - rewrite String.eqb_eq. split; [intros ->; reflexivity | intros [= ->]; reflexivity].
  - split; discriminate.
Qed.

(** The test of the overlap scan decides [conflicts_with]. *)
Lemma scan_test_conflicts b excludeId existing :
  (if is_excluded existing excludeId then false
   else date_lt (Date_parse (start b)) (Date_parse (end_ existing)) &&
        date_gt (Date_parse (end_ b)) (Date_parse (start existing))) = true
  <-> conflicts_with b excludeId existing.
Proof.
  unfold conflicts_with, overlaps, date_gt, date_lt.
  destruct (is_excluded existing excludeId) eqn:Hex.
  - apply is_excluded_true in Hex. split; [discriminate|].
    intros [Hne _]. congruence.
  - assert (Hne : Some (id existing) <> excludeId).
    { intros Heq. symmetry in Heq. apply is_excluded_true in Heq. congruence. }
    split.
    + intros Htest. apply andb_true_iff in Htest as [H1 H2].
      destruct (Date_parse (start b)) as [s1|]; [|discriminate].
      destruct (Date_parse (end_ existing)) as [e2|]; [|discriminate].
      destruct (Date_parse (start existing)) as [s2|]; [|discriminate].
      destruct (Date_parse (end_ b)) as [e1|]; [|discriminate].
      apply Z.ltb_lt in H1, H2.
      split; [exact Hne|]. exists s1, e1, s2, e2. repeat split; auto; lia.
    + intros (_ & s1 & e1 & s2 & e2 & -> & -> & -> & -> & H1 & H2).
      apply andb_true_iff. rewrite !Z.ltb_lt. lia.
Qed.

Lemma touches_not_overlaps b existing :
  touches b existing -> ~ overlaps b existing.
Proof.
  intros Htouch (s1 & e1 & s2 & e2 & Hs1 & He1 & Hs2 & He2 & H1 & H2).
  destruct Htouch as [(t & Ht1 & Ht2) | (t & Ht1 & Ht2)].
  - rewrite He2 in Ht1. rewrite Hs1 in Ht2. injection Ht1 as ->. injection Ht2 as ->. lia.
  - rewrite He1 in Ht1. rewrite Hs2 in Ht2. injection Ht1 as ->. injection Ht2 as ->. lia.
Qed.

(** C1. For a candidate [b] whose end is after its start, [validateBlock]
    returns a conflict for the first block of [existingBlocks], in the
    order given, whose id differs from [excludeId] and which overlaps [b]
    under half-open semantics, with the message naming that block; a
    block that only touches [b] is not a conflict and is never the one
    returned; when no block conflicts the result is none. *)
Theorem validateBlock_first_overlap b (existingBlocks : list StudyBlock) excludeId :
  date_gt (Date_parse (end_ b)) (Date_parse (start b)) = true ->
  match validateBlock b existingBlocks excludeId with
  | Some err =>
      (exists i : nat,
         existingBlocks !! i = Some (conflictingBlock err) /\
         conflicts_with b excludeId (conflictingBlock err) /\
         forall (j : nat) (earlier : StudyBlock),
           (j < i)%nat -> existingBlocks !! j = Some earlier ->
           ~ conflicts_with b excludeId earlier) /\
      message err = overlap_message (conflictingBlock err) /\
      ~ touches b (conflictingBlock err)
  | None =>
      forall existing, existing ∈ existingBlocks -> ~ conflicts_with b excludeId existing
  end.
Proof.
  intros Hrange. unfold validateBlock.
  assert (Hle : date_le (Date_parse (end_ b)) (Date_parse (start b)) = false).
  { unfold date_gt, date_lt in Hrange. unfold date_le.
    destruct (Date_parse (start b)), (Date_parse (end_ b)); try discriminate.
    apply Z.ltb_lt in Hrange. apply Z.leb_gt. exact Hrange. }
  rewrite Hle.
  match goal with |- context [Array_find ?p _] => set (test := p) end.
  destruct (Array_find test existingBlocks) as [found|] eqn:Hfind; simpl.
  - destruct (Array_find_Some _ _ _ Hfind) as (i & Hi & Htest & Hbefore).
    apply scan_test_conflicts in Htest.
    split; [|split].
    + exists i. repeat split; try assumption; try apply Htest.
      intros j earlier Hj Hearlier Hconf.
      apply scan_test_conflicts in Hconf.
      specialize (Hbefore j earlier Hj Hearlier). unfold test in Hbefore.
      congruence.
    + reflexivity.
    + intros Htouch. apply (touches_not_overlaps _ _ Htouch). apply Htest.
  - intros existing Hin Hconf. apply scan_test_conflicts in Hconf.
    pose proof (Array_find_None _ _ _ Hfind Hin) as Hfalse. unfold test in Hfalse.
    congruence.
Qed.

(** C4. For a candidate whose end is not after its start
    ([candidate.end <= candidate.start]), [validateBlock] returns the
    range error, "End time must be after start time", referencing the
    candidate itself, whatever the existing blocks and [excludeId] are:
    the range check is decided before the overlap scan. *)
Theorem validateBlock_range_error b (existingBlocks : list StudyBlock) excludeId :
  date_le (Date_parse (end_ b)) (Date_parse (start b)) = true ->
  validateBlock b existingBlocks excludeId =
    Some {| message := "End time must be after start time"; conflictingBlock := b |}.
Proof.
  intros Hle. unfold validateBlock. rewrite Hle. reflexivity.
Qed.

(** C9. For a candidate whose start or end does not parse to a valid
    instant, [validateBlock] returns none for every list of existing
    blocks: every comparison against the invalid instant is false. *)
Theorem validateBlock_invalid_date b (existingBlocks : list StudyBlock) excludeId :
  Date_parse (start b) = None \/ Date_parse (end_ b) = None ->
  validateBlock b existingBlocks excludeId = None.
Proof.
  intros Hinvalid. unfold validateBlock.
  assert (Hle : date_le (Date_parse (end_ b)) (Date_parse (start b)) = false).
  { unfold date_le. destruct Hinvalid as [-> | ->]; [|reflexivity].
    destruct (Date_parse (end_ b)); reflexivity. }
  rewrite Hle.
  match goal with |- context [Array_find ?p _] => set (test := p) end.
  assert (Hnone : Array_find test existingBlocks = None).
  { induction existingBlocks as [|x l IH]; [reflexivity|]. simpl.
    assert (Hx : test x = false).
    { unfold test, date_gt, date_lt.
      destruct (is_excluded x excludeId); [reflexivity|].
      destruct Hinvalid as [-> | ->]; [reflexivity|].
      destruct (Date_parse (start x)); apply andb_false_r. }
    rewrite Hx. exact IH. }
  rewrite Hnone. reflexivity.
Qed.
End Validator.

(** *** The validator on the example host *)

Section ValidatorExamples.
#[local] Existing Instance Example.host.

Lemma validateBlock_first_overlap_witness :
  date_gt (Date_parse (end_ Example.physics)) (Date_parse (start Example.physics)) = true /\
  match validateBlock Example.physics [Example.math] None with
  | Some err =>
      (exists i : nat,
         [Example.math] !! i = Some (conflictingBlock err) /\
         conflicts_with Example.physics None (conflictingBlock err) /\
         forall (j : nat) (earlier : StudyBlock),
           (j < i)%nat -> [Example.math] !! j = Some earlier ->
           ~ conflicts_with Example.physics None earlier) /\
      message err = overlap_message (conflictingBlock err) /\
      ~ touches Example.physics (conflictingBlock err)
  | None =>
      forall existing, existing ∈ [Example.math] -> ~ conflicts_with Example.physics None existing
  end.
Proof.
  split; [reflexivity|].
  apply (validateBlock_first_overlap Example.physics [Example.math] None).
  reflexivity.
Defined.

Lemma validateBlock_range_error_witness :
  date_le (Date_parse (end_ Example.backwards)) (Date_parse (start Example.backwards)) = true /\
  validateBlock Example.backwards [Example.math; Example.physics] (Some "b") =
    Some {| message := "End time must be after start time";
            conflictingBlock := Example.backwards |}.
Proof.
  split; [reflexivity|].
  apply (validateBlock_range_error Example.backwards [Example.math; Example.physics] (Some "b")).
  reflexivity.
Defined.

Lemma validateBlock_invalid_date_witness :
  (Date_parse (start Example.undated) = None \/ Date_parse (end_ Example.undated) = None) /\
  validateBlock Example.undated [Example.math; Example.physics] None = None.
Proof.
  split; [right; reflexivity|].
  apply (validateBlock_invalid_date Example.undated [Example.math; Example.physics] None).
  right. reflexivity.
Defined.

(** The scenario of the specification: Math 09:00-10:00 is stored, Physics
    09:30-11:00 is refused with a message that names Math; a block that
    starts when Math ends is accepted. *)
Example validateBlock_scenario :
  validateBlock Example.physics [Example.math] None =
    Some {| message := "This block overlaps with your Math session from t32400000 to t36000000";
            conflictingBlock := Example.math |} /\
  validateBlock Example.chemistry [Example.math] None = None /\
  validateBlock Example.math [Example.math] (Some "a") = None.
Proof. repeat split. Qed.

End ValidatorExamples.

(** *** The color assignment table *)

Section ColorTable.
Context {host : Host}.
Implicit Types (st : State) (s n : string).

Lemma getSubjectColor_assigned s st c :
  colorAssignments st !! normalize s = Some c ->
  getSubjectColor s st = (Returns c, st).
Proof.
  intros Hc. unfold getSubjectColor, bind, gets, ret. simpl. rewrite Hc. reflexivity.
Qed.

Lemma getSubjectColor_fresh s st :
  colorAssignments st !! normalize s = None ->
  getSubjectColor s st =
    (Returns (availableColor (map_img (colorAssignments st))),
     set_colorAssignments
       (insert (normalize s) (availableColor (map_img (colorAssignments st)))) st).
Proof.
  intros Hc. unfold getSubjectColor, bind, gets, modify, ret. simpl. rewrite Hc.
  reflexivity.
Qed.

(** [getSubjectColor] always returns; the subject is assigned the color it
    returns, earlier assignments stay, and nothing else is written. *)
Lemma getSubjectColor_returns s st :
  exists (c : string) (st' : State),
    getSubjectColor s st = (Returns c, st') /\
    colorAssignments st' !! normalize s = Some c /\
    (forall n c0, colorAssignments st !! n = Some c0 -> colorAssignments st' !! n = Some c0) /\
    localStorage st' = localStorage st /\ console st' = console st.
Proof.
  destruct (colorAssignments st !! normalize s) as [c|] eqn:Hc.
  - exists c, st. rewrite (getSubjectColor_assigned _ _ _ Hc). auto.
  - eexists _, _. rewrite (getSubjectColor_fresh _ _ Hc). split; [reflexivity|].
    simpl. split; [apply lookup_insert_eq|]. split; [|auto].
    intros n c0 Hn. rewrite lookup_insert_ne; [exact Hn|]. congruence.
Qed.

Lemma resolve_all_returns (subjects : list string) st :
  exists st' : State,
    resolve_all subjects st = (Returns tt, st') /\
    (forall n c0, colorAssignments st !! n = Some c0 -> colorAssignments st' !! n = Some c0) /\
    localStorage st' = localStorage st /\ console st' = console st.
Proof.
  revert st. induction subjects as [|s subjects IH]; intros st.
  - exists st. auto.
  - destruct (getSubjectColor_returns s st) as (c & st1 & Hrun & _ & Hkeep & Hls & Hco).
    destruct (IH st1) as (st2 & Hrest & Hkeep2 & Hls2 & Hco2).
    exists st2. unfold resolve_all in *. simpl. unfold bind at 1 2. rewrite Hrun. simpl.
    split; [exact Hrest|]. split; [auto|]. split; congruence.
Qed.

(** C8. The color of a created block depends on the subject only through
    its normalization: [getSubjectColor] gives the same result for two
    subjects that are equal after lowercasing and trimming, and of two
    [createBlock] calls on the same store with such subjects, whatever
    subjects are resolved between them, the second returns the color of
    the first. *)
Theorem createBlock_color_of_normalized_subject
    (data1 data2 : BlockData) (uuid1 now1 uuid2 now2 : string)
    (between : list string) (st : State) :
  normalize (data_subject data1) = normalize (data_subject data2) ->
  (forall st0 : State,
     getSubjectColor (data_subject data1) st0 = getSubjectColor (data_subject data2) st0) /\
  exists (b1 b2 : StudyBlock) (st1 st2 st3 : State),
    createBlock data1 uuid1 now1 st = (Returns b1, st1) /\
    resolve_all between st1 = (Returns tt, st2) /\
    createBlock data2 uuid2 now2 st2 = (Returns b2, st3) /\
    color b2 = color b1 /\ st3 = st2.
Proof.
  intros Hnorm. split.
  - intros st0. unfold getSubjectColor. rewrite Hnorm. reflexivity.
  - destruct (getSubjectColor_returns (data_subject data1) st)
      as (c & st1 & Hrun1 & Hc & _).
    destruct (resolve_all_returns between st1) as (st2 & Hrun2 & Hkeep & _).
    pose proof (Hkeep _ _ Hc) as Hc2. rewrite Hnorm in Hc2.
    pose proof (getSubjectColor_assigned _ _ _ Hc2) as Hrun3.
    eexists _, _, st1, st2, st2. unfold createBlock, bind, ret.
    rewrite Hrun1, Hrun3. simpl. repeat split; try reflexivity. exact Hrun2.
Qed.

End ColorTable.

Section ColorTableExamples.
#[local] Existing Instance Example.host.

Lemma createBlock_color_of_normalized_subject_witness :
  normalize "Math" = normalize "math " /\
  (forall st0 : State, getSubjectColor "Math" st0 = getSubjectColor "math " st0) /\
  exists (b1 b2 : StudyBlock) (st1 st2 st3 : State),
    createBlock (mkBlockData "Math" None "32400000" "36000000" normal) "u1" "t1" Example.fresh
      = (Returns b1, st1) /\
    resolve_all ["Physics"; "History"] st1 = (Returns tt, st2) /\
    createBlock (mkBlockData "math " None "39600000" "43200000" high) "u2" "t2" st2
      = (Returns b2, st3) /\
    color b2 = color b1 /\ st3 = st2.
Proof.
  split; [reflexivity|].
  apply (createBlock_color_of_normalized_subject
           (mkBlockData "Math" None "32400000" "36000000" normal)
           (mkBlockData "math " None "39600000" "43200000" high)
           "u1" "t1" "u2" "t2" ["Physics"; "History"] Example.fresh).
  reflexivity.
Defined.

(** The example of the specification: "Math" and "math " get the same
    color, the first of the palette on a fresh store. *)
Example createBlock_Math_math :
  exists st1 st2 : State,
    createBlock (mkBlockData "Math" None "32400000" "36000000" normal) "u1" "t1" Example.fresh =
      (Returns (mkStudyBlock "u1" "Math" None "32400000" "36000000" normal
                  "subject-blue" "t1" "t1"), st1) /\
    createBlock (mkBlockData "math " None "39600000" "43200000" high) "u2" "t2" st1 =
      (Returns (mkStudyBlock "u2" "math " None "39600000" "43200000" high
                  "subject-blue" "t2" "t2"), st2).
Proof.
  eexists _, _. split.
  - vm_compute. reflexivity.
  - vm_compute. reflexivity.
Qed.

End ColorTableExamples.

(** *** Updating a block *)

Section Update.
Context {host : Host}.
Implicit Types (blocks : list StudyBlock) (updates : PartialStudyBlock) (st : State).

Lemma findIndex_id_Some blocks (id' : string) (i : nat) :
  Array_findIndex (fun b => String.eqb (id b) id') blocks = Some i ->
  exists currentBlock, first_with_id blocks id' i currentBlock.
Proof.
  intros Hfind. destruct (Array_findIndex_Some _ _ _ Hfind) as (x & Hx & Hid & Hbefore).
  exists x. split; [exact Hx|]. split; [apply String.eqb_eq; exact Hid|].
  intros j b Hj Hb. apply String.eqb_neq. exact (Hbefore j b Hj Hb).
Qed.

Lemma findIndex_id_None blocks (id' : string) :
  Array_findIndex (fun b => String.eqb (id b) id') blocks = None ->
  forall b, b ∈ blocks -> id b <> id'.
Proof.
  intros Hfind b Hin. apply String.eqb_neq.
  exact (Array_findIndex_None _ _ _ Hfind Hin).
Qed.

Lemma findIndex_id_first blocks (id' : string) (i : nat) currentBlock :
  first_with_id blocks id' i currentBlock ->
  Array_findIndex (fun b => String.eqb (id b) id') blocks = Some i.
Proof.
  intros (Hi & Hid & Hbefore). apply (Array_findIndex_first _ _ _ currentBlock Hi).
  - apply String.eqb_eq. exact Hid.
  - intros j y Hj Hy. apply String.eqb_neq. exact (Hbefore j y Hj Hy).
Qed.

(** Either no block has the id, or there is a first one. *)
Lemma first_with_id_cases blocks (id' : string) :
  (forall b, b ∈ blocks -> id b <> id') \/
  (exists (i : nat) currentBlock, first_with_id blocks id' i currentBlock).
Proof.
  destruct (Array_findIndex (fun b => String.eqb (id b) id') blocks) as [i|] eqn:Hfind.
  - right. exists i. exact (findIndex_id_Some _ _ _ Hfind).
  - left. exact (findIndex_id_None _ _ Hfind).
Qed.

Lemma updateBlock_not_found blocks (id' : string) updates (now : string) st :
  (forall b, b ∈ blocks -> id b <> id') ->
  updateBlock blocks id' updates now st = (Throws "Study block not found", st).
Proof.
  intros Hnone. unfold updateBlock.
  destruct (Array_findIndex (fun b => String.eqb (id b) id') blocks) as [i|] eqn:Hfind;
    [|reflexivity].
  destruct (findIndex_id_Some _ _ _ Hfind) as (x & Hx & Hid & _).
  exfalso. apply (Hnone x); [|exact Hid].
  apply list_elem_of_lookup. exists i. exact Hx.
Qed.

Lemma updateBlock_found blocks (id' : string) updates (now : string) st (i : nat) currentBlock :
  first_with_id blocks id' i currentBlock ->
  updateBlock blocks id' updates now st =
    match changed_subject updates currentBlock with
    | Some s =>
        (let* c := getSubjectColor s in
         ret (with_color (with_id_updatedAt (spread currentBlock updates) id' now) c)) st
    | None => (Returns (with_id_updatedAt (spread currentBlock updates) id' now), st)
    end.
Proof.
  intros Hfirst. unfold updateBlock.
  rewrite (findIndex_id_first _ _ _ _ Hfirst).
  destruct Hfirst as (-> & _ & _).
  destruct (changed_subject updates currentBlock); reflexivity.
Qed.

Lemma changed_subject_Some updates currentBlock (s : string) :
  changed_subject updates currentBlock = Some s <->
  upd_subject updates = Some s /\ s <> "" /\ s <> subject currentBlock.
Proof.
  unfold changed_subject, truthy.
  destruct (upd_subject updates) as [s0|]; [|split; [discriminate|intros [? _]; discriminate]].
  destruct (String.eqb s0 "") eqn:Hempty; simpl.
  - apply String.eqb_eq in Hempty. split; [discriminate|].
    intros ([= <-] & Hne & _). contradiction.
  - apply String.eqb_neq in Hempty.
    destruct (String.eqb s0 (subject currentBlock)) eqn:Hsame; simpl.
    + apply String.eqb_eq in Hsame. split; [discriminate|].
      intros ([= <-] & _ & Hne). contradiction.
    + apply String.eqb_neq in Hsame. split.
      * intros [= <-]. auto.
      * intros ([= <-] & _). reflexivity.
Qed.

(** What [updateBlock] returns when it finds the block. *)
Lemma updateBlock_returns blocks (id' : string) updates (now : string) st
    (i : nat) (currentBlock : StudyBlock) :
  first_with_id blocks id' i currentBlock ->
  exists (r : StudyBlock) (st' : State),
    updateBlock blocks id' updates now st = (Returns r, st') /\
    id r = id' /\
    updatedAt r = now /\
    subject r = default (subject currentBlock) (upd_subject updates) /\
    description r = default (description currentBlock) (upd_description updates) /\
    start r = default (start currentBlock) (upd_start updates) /\
    end_ r = default (end_ currentBlock) (upd_end updates) /\
    priority r = default (priority currentBlock) (upd_priority updates) /\
    createdAt r = default (createdAt currentBlock) (upd_createdAt updates) /\
    match changed_subject updates currentBlock with
    | Some s => getSubjectColor s st = (Returns (color r), st')
    | None => color r = default (color currentBlock) (upd_color updates) /\ st' = st
    end /\
    localStorage st' = localStorage st /\ console st' = console st.
Proof.
  intros Hfirst. rewrite (updateBlock_found _ _ _ _ _ _ _ Hfirst).
  destruct (changed_subject updates currentBlock) as [s|].
  - destruct (getSubjectColor_returns s st) as (c & st' & Hrun & _ & _ & Hls & Hco).
    eexists _, st'. unfold bind, ret. rewrite Hrun. simpl.
    repeat split; auto.
  - eexists _, st. repeat split; auto.
Qed.

(** C2. [updateBlock] throws, with "Study block not found", if and only
    if no block of the collection has the id.  Otherwise it returns a new
    block made of the fields of the first block with that id, each
    replaced by the field of the same name in the partial fields when it
    is there, except that [id] is the id given and [updatedAt] is the
    current instant; the color is the merged one unless the subject
    changed, in which case it is the one [getSubjectColor] resolves.  The
    collection is an argument the operation only reads; of the store it
    writes nothing but the color table. *)
Theorem updateBlock_merges blocks (id' : string) updates (now : string) st :
  ((exists (e : string) (st' : State),
      updateBlock blocks id' updates now st = (Throws e, st')) <->
   (forall b, b ∈ blocks -> id b <> id')) /\
  ((forall b, b ∈ blocks -> id b <> id') ->
   updateBlock blocks id' updates now st = (Throws "Study block not found", st)) /\
  (forall (i : nat) (currentBlock : StudyBlock),
     first_with_id blocks id' i currentBlock ->
     exists (r : StudyBlock) (st' : State),
       updateBlock blocks id' updates now st = (Returns r, st') /\
       id r = id' /\
       updatedAt r = now /\
       subject r = default (subject currentBlock) (upd_subject updates) /\
       description r = default (description currentBlock) (upd_description updates) /\
       start r = default (start currentBlock) (upd_start updates) /\
       end_ r = default (end_ currentBlock) (upd_end updates) /\
       priority r = default (priority currentBlock) (upd_priority updates) /\
       createdAt r = default (createdAt currentBlock) (upd_createdAt updates) /\
       match changed_subject updates currentBlock with
       | Some s => getSubjectColor s st = (Returns (color r), st')
       | None => color r = default (color currentBlock) (upd_color updates) /\ st' = st
       end /\
       localStorage st' = localStorage st /\ console st' = console st).
Proof.
  split; [|split].
  - split.
    + intros (e & st' & Hthrow).
      destruct (first_with_id_cases blocks id') as [Hnone | (i & cur & Hfirst)]; [exact Hnone|].
      destruct (updateBlock_returns _ id' updates now st _ _ Hfirst) as (r & st'' & Hrun & _).
      congruence.
    + intros Hnone. eexists _, _. exact (updateBlock_not_found _ _ _ _ _ Hnone).
  - apply updateBlock_not_found.
  - apply updateBlock_returns.
Qed.

(** C5, as the code has it.  The block [updateBlock] returns has the
    [createdAt] of the existing block when the partial fields supply none,
    and the supplied one otherwise.  Its id is the existing block's; every
    other field the partial fields do not name is the existing block's,
    except [updatedAt], and [color] when the subject changed. *)
Theorem updateBlock_frame blocks (id' : string) updates (now : string) st
    (i : nat) (currentBlock r : StudyBlock) (st' : State) :
  first_with_id blocks id' i currentBlock ->
  updateBlock blocks id' updates now st = (Returns r, st') ->
  (upd_createdAt updates = None -> createdAt r = createdAt currentBlock) /\
  (forall c : string, upd_createdAt updates = Some c -> createdAt r = c) /\
  id r = id currentBlock /\
  (upd_subject updates = None -> subject r = subject currentBlock) /\
  (upd_description updates = None -> description r = description currentBlock) /\
  (upd_start updates = None -> start r = start currentBlock) /\
  (upd_end updates = None -> end_ r = end_ currentBlock) /\
  (upd_priority updates = None -> priority r = priority currentBlock) /\
  (upd_color updates = None -> changed_subject updates currentBlock = None ->
   color r = color currentBlock).
Proof.
  intros Hfirst Hrun.
  destruct (updateBlock_returns _ id' updates now st _ _ Hfirst)
    as (r0 & st0 & Hrun0 & Hid & _ & Hsubject & Hdescription & Hstart & Hend & Hpriority
        & HcreatedAt & Hcolor & _).
  rewrite Hrun in Hrun0. injection Hrun0 as <- <-.
  destruct Hfirst as (_ & Hcur & _).
  repeat split.
  - intros Hnone. rewrite HcreatedAt, Hnone. reflexivity.
  - intros c Hsome. rewrite HcreatedAt, Hsome. reflexivity.
  - congruence.
  - intros Hnone. rewrite Hsubject, Hnone. reflexivity.
  - intros Hnone. rewrite Hdescription, Hnone. reflexivity.
  - intros Hnone. rewrite Hstart, Hnone. reflexivity.
  - intros Hnone. rewrite Hend, Hnone. reflexivity.
  - intros Hnone. rewrite Hpriority, Hnone. reflexivity.
  - intros Hnone Hsame. rewrite Hsame in Hcolor. destruct Hcolor as [-> _].
    rewrite Hnone. reflexivity.
Qed.

(** C6, as the code has it.  [updateBlock] resolves the color through the
    color assignment table exactly when the partial fields hold a
    non-empty subject that is not, character for character, the current
    subject; otherwise the color is the merged one and the table is left
    alone.  For a subject that is a case or whitespace variant of the
    current one, the returned block keeps the color of the existing block
    provided the table assigns that color to the normalized subject and
    the partial fields supply no color. *)
Theorem updateBlock_color_resolution blocks (id' : string) updates (now : string) st
    (i : nat) (currentBlock : StudyBlock) :
  first_with_id blocks id' i currentBlock ->
  exists (r : StudyBlock) (st' : State),
    updateBlock blocks id' updates now st = (Returns r, st') /\
    (forall s : string,
       changed_subject updates currentBlock = Some s <->
       upd_subject updates = Some s /\ s <> "" /\ s <> subject currentBlock) /\
    (forall s : string,
       changed_subject updates currentBlock = Some s ->
       getSubjectColor s st = (Returns (color r), st')) /\
    (changed_subject updates currentBlock = None ->
     color r = default (color currentBlock) (upd_color updates) /\ st' = st) /\
    (forall s : string,
       upd_subject updates = Some s ->
       normalize s = normalize (subject currentBlock) ->
       colorAssignments st !! normalize (subject currentBlock) = Some (color currentBlock) ->
       upd_color updates = None ->
       color r = color currentBlock /\ st' = st).
Proof.
  intros Hfirst.
  destruct (updateBlock_returns _ id' updates now st _ _ Hfirst)
    as (r & st' & Hrun & _ & _ & _ & _ & _ & _ & _ & _ & Hcolor & _).
  exists r, st'. split; [exact Hrun|]. split; [apply changed_subject_Some|].
  split; [|split].
  - intros s Hs. rewrite Hs in Hcolor. exact Hcolor.
  - intros Hnone. rewrite Hnone in Hcolor. exact Hcolor.
  - intros s Hs Hvariant Htable Hnocolor.
    destruct (changed_subject updates currentBlock) as [s0|] eqn:Hchanged.
    + apply changed_subject_Some in Hchanged as (Hs0 & _).
      assert (s0 = s) as -> by congruence.
      rewrite <- Hvariant in Htable.
      rewrite (getSubjectColor_assigned _ _ _ Htable) in Hcolor.
      injection Hcolor as -> ->. auto.
    + destruct Hcolor as [-> ->]. rewrite Hnocolor. auto.
Qed.

End Update.

(** *** Updates on examples *)

Section UpdateExamples.
#[local] Existing Instance Example.host.

Lemma first_with_id_head (b : StudyBlock) (blocks : list StudyBlock) :
  first_with_id (b :: blocks) (id b) 0 b.
Proof.
  split; [reflexivity|]. split; [reflexivity|]. intros j b0 Hj. lia.
Qed.

Lemma updateBlock_frame_witness :
  first_with_id [Example.math; Example.physics] "a" 0 Example.math /\
  updateBlock [Example.math; Example.physics] "a" Example.retime "now" Example.fresh =
    (Returns (mkStudyBlock "a" "Math" None "39600000" "43200000" normal "subject-red" "1" "now"),
     Example.fresh) /\
  createdAt (mkStudyBlock "a" "Math" None "39600000" "43200000" normal "subject-red" "1" "now")
    = createdAt Example.math.
Proof.
  split; [apply (first_with_id_head Example.math)|].
  split; [reflexivity|].
  apply (proj1 (updateBlock_frame [Example.math; Example.physics] "a" Example.retime "now"
                  Example.fresh 0 Example.math _ Example.fresh
                  (first_with_id_head Example.math [Example.physics]) eq_refl)).
  reflexivity.
Defined.

(** A [createdAt] in the partial fields replaces the one of the block. *)
Lemma updateBlock_replaces_createdAt :
  first_with_id [Example.math] "a" 0 Example.math /\
  updateBlock [Example.math] "a" Example.backdate "now" Example.fresh =
    (Returns (mkStudyBlock "a" "Math" None "32400000" "36000000" normal "subject-red" "0" "now"),
     Example.fresh) /\
  createdAt (mkStudyBlock "a" "Math" None "32400000" "36000000" normal "subject-red" "0" "now")
    <> createdAt Example.math.
Proof.
  split; [apply (first_with_id_head Example.math)|].
  split; [reflexivity|]. discriminate.
Qed.

Lemma updateBlock_color_resolution_witness :
  first_with_id [Example.math] "a" 0 Example.math /\
  exists (r : StudyBlock) (st' : State),
    updateBlock [Example.math] "a" Example.rename_to_math "now" Example.math_assigned
      = (Returns r, st') /\
    (forall s : string,
       changed_subject Example.rename_to_math Example.math = Some s <->
       upd_subject Example.rename_to_math = Some s /\ s <> "" /\ s <> subject Example.math) /\
    (forall s : string,
       changed_subject Example.rename_to_math Example.math = Some s ->
       getSubjectColor s Example.math_assigned = (Returns (color r), st')) /\
    (changed_subject Example.rename_to_math Example.math = None ->
     color r = default (color Example.math) (upd_color Example.rename_to_math) /\
     st' = Example.math_assigned) /\
    (forall s : string,
       upd_subject Example.rename_to_math = Some s ->
       normalize s = normalize (subject Example.math) ->
       colorAssignments Example.math_assigned !! normalize (subject Example.math)
         = Some (color Example.math) ->
       upd_color Example.rename_to_math = None ->
       color r = color Example.math /\ st' = Example.math_assigned).
Proof.
  split; [apply (first_with_id_head Example.math)|].
  apply (updateBlock_color_resolution [Example.math] "a" Example.rename_to_math "now"
           Example.math_assigned 0 Example.math).
  apply (first_with_id_head Example.math).
Defined.

(** On a store whose table does not hold the subject, renaming "Math" to
    "math" resolves a color anew: the block turns from red to the first
    free color of the palette. *)
Lemma updateBlock_recolors_variant_subject :
  first_with_id [Example.math] "a" 0 Example.math /\
  upd_subject Example.rename_to_math = Some "math" /\
  normalize "math" = normalize (subject Example.math) /\
  fst (updateBlock [Example.math] "a" Example.rename_to_math "now" Example.fresh) =
    Returns (mkStudyBlock "a" "math" None "32400000" "36000000" normal "subject-blue" "1" "now") /\
  color (mkStudyBlock "a" "math" None "32400000" "36000000" normal "subject-blue" "1" "now")
    <> color Example.math.
Proof.
  split; [apply (first_with_id_head Example.math)|].
  split; [reflexivity|]. split; [reflexivity|]. split; [vm_compute; reflexivity|].
  discriminate.
Qed.

(** An id no block has; and an id in the partial fields, which is not
    taken. *)
Example updateBlock_ids :
  updateBlock [Example.math; Example.physics] "x" Example.retime "now" Example.fresh =
    (Throws "Study block not found", Example.fresh) /\
  upd_id Example.retime = Some "z" /\
  updateBlock [Example.math; Example.physics] "b" Example.retime "now" Example.fresh =
    (Returns (mkStudyBlock "b" "Physics" (Some "waves") "39600000" "43200000" high
                "subject-green" "2" "now"),
     Example.fresh).
Proof. repeat split. Qed.

End UpdateExamples.

(** *** Loading the persisted blocks *)

Section Load.
Context {host : Host}.
Implicit Types (st : State) (elements : list Element).

Lemma first_color_cons (b : StudyBlock) (blocks : list StudyBlock) (n : string) :
  first_color (b :: blocks) n =
    if String.eqb (normalize (subject b)) n then Some (color b) else first_color blocks n.
Proof.
  unfold first_color. simpl. destruct (String.eqb (normalize (subject b)) n); reflexivity.
Qed.

(** The loop of [rebuildColorAssignments] over blocks that all have a
    subject: a subject already in the table keeps its color, a new one
    takes the stored color of its first block. *)
Lemma forEach_recordColor_well_formed elements st :
  well_formed elements = true ->
  exists st' : State,
    forEach recordColor elements st = (Returns tt, st') /\
    (forall n : string,
       colorAssignments st' !! n =
         match colorAssignments st !! n with
         | Some c => Some c
         | None => first_color (blocks_before_malformed elements) n
         end) /\
    localStorage st' = localStorage st /\ console st' = console st.
Proof.
  revert st. induction elements as [|[b|] elements IH]; intros st Hwf.
  - exists st. split; [reflexivity|]. split; [|auto].
    intros n. destruct (colorAssignments st !! n); reflexivity.
  - simpl in Hwf.
    simpl forEach. unfold bind at 1. unfold recordColor, bind, gets, ret, modify. simpl.
    destruct (colorAssignments st !! normalize (subject b)) as [c0|] eqn:Hhas.
    + destruct (IH st Hwf) as (st' & Hrun & Htable & Hls & Hco).
      exists st'. split; [exact Hrun|]. split; [|auto].
      intros n. rewrite Htable, first_color_cons.
      destruct (colorAssignments st !! n) eqn:Hn; [reflexivity|].
      destruct (String.eqb_spec (normalize (subject b)) n) as [<-|]; [congruence|reflexivity].
    + destruct (IH (set_colorAssignments (insert (normalize (subject b)) (color b)) st) Hwf)
        as (st' & Hrun & Htable & Hls & Hco).
      exists st'. split; [exact Hrun|]. split; [|auto].
      intros n. rewrite Htable, first_color_cons. simpl.
      destruct (String.eqb_spec (normalize (subject b)) n) as [<-|Hne].
      * rewrite lookup_insert_eq, Hhas. reflexivity.
      * rewrite lookup_insert_ne by exact Hne. reflexivity.
  - discriminate.
Qed.

(** The loop throws at the first malformed element; the colors recorded
    before it stay in the table. *)
Lemma forEach_recordColor_malformed elements st :
  well_formed elements = false ->
  exists st' : State,
    forEach recordColor elements st = (Throws "TypeError", st') /\
    localStorage st' = localStorage st /\ console st' = console st.
Proof.
  revert st. induction elements as [|[b|] elements IH]; intros st Hwf.
  - discriminate.
  - simpl in Hwf.
    simpl forEach. unfold bind at 1. unfold recordColor, bind, gets, ret, modify. simpl.
    destruct (colorAssignments st !! normalize (subject b)) as [c0|].
    + apply IH. exact Hwf.
    + destruct (IH (set_colorAssignments (insert (normalize (subject b)) (color b)) st) Hwf)
        as (st' & Hrun & Hls & Hco).
      exists st'. auto.
  - exists st. auto.
Qed.

Lemma rebuildColorAssignments_well_formed elements st :
  well_formed elements = true ->
  exists st' : State,
    rebuildColorAssignments elements st = (Returns tt, st') /\
    (forall n : string,
       colorAssignments st' !! n = first_color (blocks_before_malformed elements) n) /\
    localStorage st' = localStorage st /\ console st' = console st.
Proof.
  intros Hwf. unfold rebuildColorAssignments, bind at 1, modify.
  destruct (forEach_recordColor_well_formed elements
              (set_colorAssignments (fun _ => ∅) st) Hwf) as (st' & Hrun & Htable & Hls & Hco).
  exists st'. split; [exact Hrun|]. split; [|auto].
  intros n. rewrite Htable. simpl. rewrite lookup_empty. reflexivity.
Qed.

(** C3, as the code has it.  [loadBlocks] always returns and never writes
    the persisted data.  When nothing is persisted under the key (or the
    empty text is) it returns the empty sequence and leaves the color
    assignment table and the diagnostic channel as they were; when the
    persisted text does not parse it returns the empty sequence, leaves
    the table as it was and logs one diagnostic; when the text parses and
    no element is malformed it returns the parsed array (empty for a value
    that is not an array) and has rebuilt the table from it, the first
    block of each normalized subject giving its stored color; when an
    element is malformed it returns the empty sequence and logs one
    diagnostic. *)
Theorem loadBlocks_recovers st :
  exists (blocks : list Element) (st' : State),
    loadBlocks st = (Returns blocks, st') /\
    localStorage st' = localStorage st /\
    match localStorage st !! STORAGE_KEY with
    | None => blocks = [] /\ st' = st
    | Some text =>
        if String.eqb text "" then blocks = [] /\ st' = st
        else
          match JSON_parse text with
          | None =>
              blocks = [] /\
              colorAssignments st' = colorAssignments st /\
              console st' = (console st ++ ["Failed to load study blocks: SyntaxError"])%list
          | Some data =>
              if well_formed (array_or_empty data) then
                blocks = array_or_empty data /\
                (forall n : string,
                   colorAssignments st' !! n =
                     first_color (blocks_before_malformed blocks) n) /\
                console st' = console st
              else
                blocks = [] /\
                console st' = (console st ++ ["Failed to load study blocks: TypeError"])%list
          end
    end.
Proof.
  unfold loadBlocks, try_catch, bind at 1, gets.
  destruct (localStorage st !! STORAGE_KEY) as [text|] eqn:Hstored.
  - unfold truthy. rewrite negb_involutive.
    destruct (String.eqb text "") eqn:Hempty.
    + exists [], st. simpl. auto.
    + destruct (JSON_parse text) as [data|] eqn:Hparse.
      * destruct (well_formed (array_or_empty data)) eqn:Hwf.
        -- destruct (rebuildColorAssignments_well_formed _ st Hwf)
             as (st' & Hrun & Htable & Hls & Hco).
           exists (array_or_empty data), st'. unfold bind, ret. rewrite Hrun. auto.
        -- assert (Hthrow : exists st' : State,
                     rebuildColorAssignments (array_or_empty data) st
                       = (Throws "TypeError", st') /\
                     localStorage st' = localStorage st /\ console st' = console st).
           { unfold rebuildColorAssignments, bind at 1, modify.
             exact (forEach_recordColor_malformed _ _ Hwf). }
           destruct Hthrow as (st' & Hrun & Hls & Hco).
           eexists [], _. unfold bind at 1. rewrite Hrun.
           unfold bind, console_error, modify, ret. simpl.
           split; [reflexivity|]. rewrite Hco. auto.
      * eexists [], _. unfold throw, bind, console_error, modify, ret. simpl.
        split; [reflexivity|]. auto.
  - exists [], st. simpl. auto.
Qed.

(** C10. When the persisted text parses as JSON to a value that is not an
    array, [loadBlocks] returns the empty sequence, without failing and
    without a diagnostic, and the color assignment table is rebuilt to the
    empty table. *)
Theorem loadBlocks_not_array st (text : string) (data : JSONValue) :
  localStorage st !! STORAGE_KEY = Some text ->
  JSON_parse text = Some data ->
  isArray data = false ->
  exists st' : State,
    loadBlocks st = (Returns [], st') /\
    colorAssignments st' = ∅ /\
    localStorage st' = localStorage st /\ console st' = console st.
Proof.
  intros Hstored Hparse Hnot.
  assert (Htext : String.eqb text "" = false).
  { apply String.eqb_neq. intros ->. rewrite JSON_parse_empty in Hparse. discriminate. }
  assert (Hempty : array_or_empty data = []) by (destruct data; [reflexivity..|discriminate]).
  unfold loadBlocks, try_catch, bind at 1, gets. rewrite Hstored.
  unfold truthy. rewrite Htext, Hparse, Hempty. simpl.
  eexists. split; [reflexivity|]. simpl. auto.
Qed.

End Load.

(** *** Loading on examples *)

Section LoadExamples.
#[local] Existing Instance Example.host.

(** With nothing persisted, [loadBlocks] returns the empty sequence,
    logs nothing, and the table is not the one rebuilt from the returned
    sequence: the color that was assigned is still there. *)
Lemma loadBlocks_missing_keeps_table :
  localStorage Example.math_assigned !! STORAGE_KEY = None /\
  exists (blocks : list Element) (st' : State),
    loadBlocks Example.math_assigned = (Returns blocks, st') /\
    blocks = [] /\ console st' = [] /\
    ~ (forall n : string,
         colorAssignments st' !! n = first_color (blocks_before_malformed blocks) n).
Proof.
  split; [reflexivity|]. exists [], Example.math_assigned.
  split; [reflexivity|]. split; [reflexivity|]. split; [reflexivity|].
  intros Hrebuilt. specialize (Hrebuilt "math"). discriminate Hrebuilt.
Qed.

(** With a text that does not parse, the same. *)
Example loadBlocks_unparsable_keeps_table :
  JSON_parse "{oops" = None /\
  exists st' : State,
    loadBlocks (Example.persisted "{oops") = (Returns [], st') /\
    colorAssignments st' !! "math" = Some "subject-red" /\
    console st' = ["Failed to load study blocks: SyntaxError"].
Proof.
  split; [reflexivity|]. eexists. split; [vm_compute; reflexivity|].
  split; reflexivity.
Qed.

Lemma loadBlocks_not_array_witness :
  localStorage (Example.persisted "{}") !! STORAGE_KEY = Some "{}" /\
  JSON_parse "{}" = Some JObject /\
  isArray JObject = false /\
  exists st' : State,
    loadBlocks (Example.persisted "{}") = (Returns [], st') /\
    colorAssignments st' = ∅ /\
    localStorage st' = localStorage (Example.persisted "{}") /\
    console st' = console (Example.persisted "{}").
Proof.
  split; [reflexivity|]. split; [reflexivity|]. split; [reflexivity|].
  apply (loadBlocks_not_array (Example.persisted "{}") "{}" JObject); reflexivity.
Defined.

(** A number and null are not arrays either. *)
Example loadBlocks_number_null :
  fst (loadBlocks (Example.persisted "7")) = Returns [] /\
  colorAssignments (snd (loadBlocks (Example.persisted "7"))) = ∅ /\
  fst (loadBlocks (Example.persisted "null")) = Returns [] /\
  colorAssignments (snd (loadBlocks (Example.persisted "null"))) = ∅.
Proof. repeat split; vm_compute; reflexivity. Qed.

(** An array with a malformed element: nothing is returned, and the table
    holds what was recorded before the element. *)
Example loadBlocks_malformed_element :
  exists st' : State,
    loadBlocks (Example.persisted "[math,null]") = (Returns [], st') /\
    colorAssignments st' = {[ "math" := "subject-red" ]} /\
    console st' = ["Failed to load study blocks: TypeError"].
Proof.
  eexists. split; [vm_compute; reflexivity|]. split; reflexivity.
Qed.

(** Two persisted blocks: both are returned and the table holds their
    stored colors. *)
Example loadBlocks_two_blocks :
  exists st' : State,
    loadBlocks (Example.persisted "[math,physics]") =
      (Returns [Block Example.math; Block Example.physics], st') /\
    colorAssignments st' !! "math" = Some "subject-red" /\
    colorAssignments st' !! "physics" = Some "subject-green".
Proof.
  eexists. split; [vm_compute; reflexivity|]. split; reflexivity.
Qed.

End LoadExamples.

(** *** Statistics *)

Section Statistics.
Context {host : Host}.
Implicit Types (blocks : list StudyBlock) (startDate endDate : Date) (s : string).

(** [current || 0] is [current] itself for a total that is a number other
    than zero, and 0 when there is no total yet. *)
Lemma or_zero_number (x : float) :
  PrimFloat.is_nan x = false -> PrimFloat.is_zero x = false -> or_zero (Some x) = x.
Proof.
  intros Hnan Hzero. unfold or_zero. rewrite Hnan, Hzero. reflexivity.
Qed.

Lemma or_zero_undefined : or_zero None = 0%float.
Proof. reflexivity. Qed.

(** One turn of the loop, in the vocabulary of the specification. *)
Lemma addBlock_unfold startDate endDate (stats : gmap string float) (b : StudyBlock) :
  addBlock startDate endDate stats b =
    if in_window startDate endDate b then
      <[subject b := PrimFloat.add (or_zero (stats !! subject b)) (hours b)]> stats
    else stats.
Proof. reflexivity. Qed.

Lemma getSubjectStats_snoc blocks startDate endDate (b : StudyBlock) :
  getSubjectStats (blocks ++ [b]) startDate endDate =
    if in_window startDate endDate b then
      <[subject b :=
          PrimFloat.add (or_zero (getSubjectStats blocks startDate endDate !! subject b))
                        (hours b)]>
        (getSubjectStats blocks startDate endDate)
    else getSubjectStats blocks startDate endDate.
Proof.
  unfold getSubjectStats. rewrite fold_left_app. reflexivity.
Qed.

Lemma in_window_starts_within startDate endDate (b : StudyBlock) :
  in_window startDate endDate b = true <-> starts_within startDate endDate b.
Proof.
  unfold in_window, starts_within, date_ge, date_le. split.
  - intros Htest. apply andb_true_iff in Htest as [Hlo Hhi].
    destruct (Date_parse (start b)) as [t|]; [|destruct startDate; discriminate].
    destruct startDate as [lo|]; [|discriminate].
    destruct endDate as [hi|]; [|discriminate].
    apply Z.leb_le in Hlo, Hhi. exists t, lo, hi. auto.
  - intros (t & lo & hi & -> & -> & -> & Hlo & Hhi).
    apply andb_true_iff. rewrite !Z.leb_le. auto.
Qed.

(** The total of a subject is made of the blocks of that subject inside
    the window, taken in order, from whatever total there was. *)
Lemma fold_addBlock_lookup blocks startDate endDate s (stats : gmap string float) :
  fold_left (addBlock startDate endDate) blocks stats !! s =
  fold_left add_hours
    (map hours
       (List.filter (fun b => in_window startDate endDate b && String.eqb (subject b) s) blocks))
    (stats !! s).
Proof.
  revert stats. induction blocks as [|b blocks IH]; intros stats; [reflexivity|].
  simpl fold_left at 1. rewrite IH. clear IH. simpl List.filter.
  rewrite addBlock_unfold.
  destruct (in_window startDate endDate b); simpl; [|reflexivity].
  destruct (String.eqb_spec (subject b) s) as [<-|Hne]; simpl.
  - rewrite lookup_insert_eq. reflexivity.
  - rewrite lookup_insert_ne by exact Hne. reflexivity.
Qed.

(** The blocks that start outside the window leave the totals alone. *)
Lemma fold_addBlock_filter blocks startDate endDate (stats : gmap string float) :
  fold_left (addBlock startDate endDate) blocks stats =
  fold_left (addBlock startDate endDate) (List.filter (in_window startDate endDate) blocks) stats.
Proof.
  revert stats. induction blocks as [|b blocks IH]; intros stats; [reflexivity|].
  simpl List.filter. simpl fold_left at 1. rewrite addBlock_unfold.
  destruct (in_window startDate endDate b) eqn:Hin.
  - simpl fold_left at 2. rewrite addBlock_unfold, Hin. apply IH.
  - apply IH.
Qed.

(** [current || 0] against the classes of doubles: NaN and both zeros
    are falsy, every other double is kept. *)
Lemma SFclassify_finite_neq (sign : bool) m e (c : float_class) :
  match c with PNormal | NNormal | PSubn | NSubn => False | _ => True end ->
  SFclassify prec (S754_finite sign m e) <> c.
Proof.
  intros Hc H. unfold SFclassify in H.
  destruct sign; destruct (Z.pos (digits2_pos m) =? prec)%Z; subst c; exact Hc.
Qed.

Lemma is_nan_classify (t : float) :
  PrimFloat.is_nan t = true <-> PrimFloat.classify t = NaN.
Proof.
  unfold PrimFloat.is_nan. rewrite FloatAxioms.eqb_spec, FloatAxioms.classify_spec.
  unfold SF64classify.
  destruct (Prim2SF t) as [[|]|[|]| |sign m e] eqn:Ht.
  1-5: (cbn; split; intros H; (discriminate H || reflexivity)).
  split.
  - unfold SFeqb, SFcompare.
    destruct sign; rewrite Z.compare_refl, Pos.compare_cont_refl; discriminate.
  - intros H. exfalso. revert H. apply SFclassify_finite_neq. exact I.
Qed.

Lemma is_zero_classify (t : float) :
  PrimFloat.is_zero t = true <->
  PrimFloat.classify t = PZero \/ PrimFloat.classify t = NZero.
Proof.
  unfold PrimFloat.is_zero. rewrite FloatAxioms.eqb_spec, FloatAxioms.classify_spec.
  change (Prim2SF zero) with (S754_zero false).
  unfold SF64classify.
  destruct (Prim2SF t) as [[|]|[|]| |sign m e] eqn:Ht.
  1-5: (cbn; split; [intros H|intros [H|H]]; try discriminate H; auto).
  split.
  - unfold SFeqb, SFcompare. destruct sign; discriminate.
  - intros [H|H]; exfalso; revert H; apply SFclassify_finite_neq; exact I.
Qed.

Lemma classify_PZero (t : float) : PrimFloat.classify t = PZero -> t = 0%float.
Proof.
  rewrite FloatAxioms.classify_spec. intros H. apply FloatAxioms.Prim2SF_inj.
  change (Prim2SF 0) with (S754_zero false).
  unfold SF64classify in H.
  destruct (Prim2SF t) as [[|]|[|]| |sign m e]; try discriminate H; try reflexivity.
  exfalso. revert H. apply SFclassify_finite_neq. exact I.
Qed.

Lemma or_zero_total_so_far (total : option float) : or_zero total = total_so_far total.
Proof.
  destruct total as [t|]; [|reflexivity]. unfold or_zero, total_so_far, carries_on.
  destruct (PrimFloat.is_nan t) eqn:Hnan.
  - apply is_nan_classify in Hnan. rewrite Hnan. reflexivity.
  - destruct (PrimFloat.is_zero t) eqn:Hzero; simpl.
    + apply is_zero_classify in Hzero as [Hz|Hz]; rewrite Hz; [|reflexivity].
      symmetry. apply classify_PZero, Hz.
    + destruct (PrimFloat.classify t) eqn:Hclass; try reflexivity.
      * assert (PrimFloat.is_zero t = true) as H by (apply is_zero_classify; auto).
        congruence.
      * assert (PrimFloat.is_nan t = true) as H by (apply is_nan_classify; auto).
        congruence.
Qed.

Lemma or_zero_carries_on (t : float) : carries_on t = true -> or_zero (Some t) = t.
Proof.
  intros Hc. rewrite or_zero_total_so_far. simpl. rewrite Hc. reflexivity.
Qed.

Lemma fold_add_hours_total_of (durations : list float) :
  fold_left add_hours durations None = total_of durations.
Proof.
  unfold total_of. generalize (@None float).
  induction durations as [|h durations IH]; intros total; [reflexivity|].
  simpl. unfold add_hours at 2. rewrite or_zero_total_so_far. apply IH.
Qed.

Lemma sum_of_durations_snoc (durations : list float) (h : float) :
  sum_of_durations (durations ++ [h]) = PrimFloat.add (sum_of_durations durations) h.
Proof. unfold sum_of_durations. rewrite fold_left_app. reflexivity. Qed.

(** While no total on the way is NaN or negative zero, the total is the
    plain sum of the durations. *)
Lemma fold_add_hours_sum (durations : list float) :
  durations <> [] ->
  (forall k : nat, (0 < k < length durations)%nat ->
     carries_on (sum_of_durations (take k durations)) = true) ->
  fold_left add_hours durations None = Some (sum_of_durations durations).
Proof.
  induction durations as [|h durations IH] using rev_ind; [congruence|].
  intros _ Hcarry. rewrite fold_left_app, sum_of_durations_snoc. simpl.
  destruct durations as [|h0 durations]; [reflexivity|].
  rewrite IH.
  - unfold add_hours. rewrite or_zero_carries_on; [reflexivity|].
    specialize (Hcarry (length (h0 :: durations))).
    rewrite take_app_length in Hcarry. apply Hcarry.
    rewrite length_app. simpl. lia.
  - discriminate.
  - intros k Hk. specialize (Hcarry k).
    rewrite take_app_le in Hcarry by lia. apply Hcarry.
    rewrite length_app. simpl in *. lia.
Qed.

(** C7, as the code has it.  [getSubjectStats] returns the mapping in
    which the total of a subject string is made, in the order of the list,
    from the blocks that carry exactly that subject string and whose start
    lies in the window, both ends included.  Each of them adds its whole
    duration, end minus start in hours, to the total so far, except that
    a total that is NaN (left by a block whose end does not parse) is
    taken as 0; a subject without such a block has no entry.  So, while
    no total on the way is NaN (or negative zero), the total of a subject
    is the plain sum of the durations of its blocks.  The duration does
    not depend on the window, and the blocks that start outside the
    window can be removed from the list without changing the result. *)
Theorem getSubjectStats_totals blocks startDate endDate :
  (forall s : string,
     let durations :=
       map hours
         (List.filter
            (fun b => in_window startDate endDate b && String.eqb (subject b) s) blocks) in
     getSubjectStats blocks startDate endDate !! s = total_of durations /\
     (durations = [] -> getSubjectStats blocks startDate endDate !! s = None) /\
     (durations <> [] ->
      (forall k : nat, (0 < k < length durations)%nat ->
         carries_on (sum_of_durations (take k durations)) = true) ->
      getSubjectStats blocks startDate endDate !! s = Some (sum_of_durations durations))) /\
  (forall b : StudyBlock,
     in_window startDate endDate b = true <-> starts_within startDate endDate b) /\
  (forall b : StudyBlock,
     hours b =
       PrimFloat.div
         (PrimFloat.sub (getTime (Date_parse (end_ b))) (getTime (Date_parse (start b))))
         3600000%float) /\
  getSubjectStats blocks startDate endDate =
    getSubjectStats (List.filter (in_window startDate endDate) blocks) startDate endDate /\
  (forall b : StudyBlock,
     getSubjectStats (blocks ++ [b]) startDate endDate =
       if in_window startDate endDate b then
         <[subject b :=
             PrimFloat.add (total_so_far (getSubjectStats blocks startDate endDate !! subject b))
                           (hours b)]>
           (getSubjectStats blocks startDate endDate)
       else getSubjectStats blocks startDate endDate).
Proof.
  split; [|split; [|split; [|split]]].
  - intros s durations.
    assert (getSubjectStats blocks startDate endDate !! s = fold_left add_hours durations None)
      as Hfold.
    { unfold getSubjectStats. rewrite fold_addBlock_lookup, lookup_empty. reflexivity. }
    rewrite Hfold. split; [apply fold_add_hours_total_of|]. split.
    + intros ->. reflexivity.
    + apply fold_add_hours_sum.
  - intros b. apply in_window_starts_within.
  - intros b. reflexivity.
  - unfold getSubjectStats. apply fold_addBlock_filter.
  - intros b. rewrite getSubjectStats_snoc, or_zero_total_so_far. reflexivity.
Qed.

End Statistics.

(** *** Statistics on examples *)

Section StatisticsExamples.
#[local] Existing Instance Example.host.

(** The example of the specification: one block of subject "Physics" that
    lasts an hour and a half, in a window that holds its start and not its
    end, gives 1.5 hours to "Physics". *)
Example getSubjectStats_physics :
  getSubjectStats [Example.physics] (Some 34200000) (Some 34200000) =
    {[ "Physics" := 1.5%float ]}.
Proof. vm_compute. reflexivity. Qed.

(** A block that starts before the window and ends inside it counts for
    nothing; subjects that differ in case have totals of their own. *)
Example getSubjectStats_window :
  getSubjectStats [Example.math; Example.physics; Example.undated] (Some 34200000) (Some 39600000)
    = {[ "Physics" := 1.5%float ]} /\
  getSubjectStats [Example.math; Example.physics; Example.lower_math] (Some 0) (Some 39600000)
    = {[ "Math" := 1%float; "Physics" := 1.5%float; "math" := 2%float ]}.
Proof. split; vm_compute; reflexivity. Qed.

(** A block whose end is not a date has NaN for duration; [current || 0]
    takes a total that is NaN for 0 when the next block of the subject
    comes. *)
Example getSubjectStats_unparsable_end :
  getSubjectStats [Example.undated] (Some 0) (Some 39600000) = {[ "Math" := nan ]} /\
  getSubjectStats [Example.undated; Example.math] (Some 0) (Some 39600000)
    = {[ "Math" := 1%float ]}.
Proof. split; vm_compute; reflexivity. Qed.

(** The total is not the sum of the durations: the first block leaves
    NaN for total, and the hour of the second starts a new total where
    the sum stays NaN. *)
Lemma getSubjectStats_total_restarts_after_NaN :
  (in_window (Some 0) (Some 39600000) Example.undated = true) /\
  (in_window (Some 0) (Some 39600000) Example.math = true) /\
  (subject Example.undated = subject Example.math) /\
  (getSubjectStats [Example.undated; Example.math] (Some 0) (Some 39600000) !! "Math"
     = Some 1%float) /\
  (sum_of_durations (map hours [Example.undated; Example.math]) = nan) /\
  (getSubjectStats [Example.undated; Example.math] (Some 0) (Some 39600000) !! "Math"
     <> Some (sum_of_durations (map hours [Example.undated; Example.math]))).
Proof.
  repeat split; try (vm_compute; reflexivity).
  intros H. apply (f_equal (fun x => PrimFloat.is_nan <$> x)) in H.
  vm_compute in H. discriminate H.
Qed.

Lemma getSubjectStats_totals_witness :
  getSubjectStats [Example.math; Example.physics; Example.lower_math; Example.math]
      (Some 0) (Some 39600000) !! "Math"
    = Some (sum_of_durations (map hours [Example.math; Example.math])).
Proof.
  destruct (proj1 (getSubjectStats_totals
                     [Example.math; Example.physics; Example.lower_math; Example.math]
                     (Some 0) (Some 39600000)) "Math") as (_ & _ & Hsum).
  apply Hsum.
  - discriminate.
  - intros k Hk. assert (k = 1%nat) as -> by (simpl in Hk; lia).
    vm_compute. reflexivity.
Defined.

(** Blocks that end after they start: the totals are the sums. *)
Example getSubjectStats_sums :
  (getSubjectStats [Example.math; Example.physics; Example.lower_math; Example.chemistry;
                    Example.math] (Some 0) (Some 39600000) !! "Math"
     = Some (sum_of_durations (map hours [Example.math; Example.math]))) /\
  (sum_of_durations (map hours [Example.math; Example.math]) = 2%float).
Proof. split; vm_compute; reflexivity. Qed.

End StatisticsExamples.

(** ** The rest of the store *)

Import Derived Saving.

(** *** The palette *)

Section Palette.
Context {host : Host}.
Implicit Types (st : State) (s n c : string).

Lemma Array_find_None_intro {A : Type} (p : A -> bool) (l : list A) :
  (forall x, x ∈ l -> p x = false) -> Array_find p l = None.
Proof.
  induction l as [|a l IH]; intros Hall; [reflexivity|]. simpl.
  rewrite (Hall a) by (left). apply IH. intros x Hx. apply Hall. right. exact Hx.
Qed.

Lemma Array_find_exists {A : Type} (p : A -> bool) (l : list A) (x : A) :
  x ∈ l -> p x = true -> exists y, Array_find p l = Some y.
Proof.
  induction l as [|a l IH]; intros Hin Hpx; [inversion Hin|]. simpl.
  destruct (p a) eqn:Hpa; [eauto|].
  apply IH; [|exact Hpx]. inversion Hin; subst; [congruence|assumption].
Qed.

Lemma unused_color_test (t : gmap string string) c :
  negb (bool_decide (c ∈ (map_img t : gset string))) = true <->
  forall n, t !! n <> Some c.
Proof.
  rewrite negb_true_iff, bool_decide_eq_false, elem_of_map_img. split.
  - intros Hnot n Hn. apply Hnot. exists n. exact Hn.
  - intros Hall (n & Hn). exact (Hall n Hn).
Qed.

(** X1. A subject that has no color yet, while some color of the palette is
    used by no subject, is assigned the first such color in the order of
    the palette: a color no other subject has. *)
Theorem getSubjectColor_first_free_color s st (free : string) :
  colorAssignments st !! normalize s = None ->
  free ∈ SUBJECT_COLORS ->
  (forall n, colorAssignments st !! n <> Some free) ->
  exists (c : string) (i : nat),
    getSubjectColor s st =
      (Returns c, set_colorAssignments (insert (normalize s) c) st) /\
    SUBJECT_COLORS !! i = Some c /\
    (forall n, colorAssignments st !! n <> Some c) /\
    (forall (j : nat) (earlier : string),
       (j < i)%nat -> SUBJECT_COLORS !! j = Some earlier ->
       exists n, colorAssignments st !! n = Some earlier).
Proof.
  intros Hnew Hpalette Hfree.
  rewrite (getSubjectColor_fresh _ _ Hnew). unfold availableColor.
  destruct (Array_find _ SUBJECT_COLORS) as [c|] eqn:Hfind.
  - destruct (Array_find_Some _ _ _ Hfind) as (i & Hi & Hc & Hbefore).
    exists c, i. split; [reflexivity|]. split; [exact Hi|]. split.
    + apply unused_color_test. exact Hc.
    + intros j earlier Hj Hearlier. specialize (Hbefore j earlier Hj Hearlier).
      apply negb_false_iff, bool_decide_eq_true in Hbefore.
      apply elem_of_map_img in Hbefore. exact Hbefore.
  - pose proof (Array_find_None _ _ _ Hfind Hpalette) as Hused.
    apply unused_color_test in Hfree. congruence.
Qed.

(** X2. When every color of the palette is in use, a subject that has no
    color yet is assigned the first color of the palette, which it then
    shares with another subject. *)
Theorem getSubjectColor_palette_exhausted s st :
  colorAssignments st !! normalize s = None ->
  (forall c, c ∈ SUBJECT_COLORS -> exists n, colorAssignments st !! n = Some c) ->
  getSubjectColor s st =
    (Returns "subject-blue", set_colorAssignments (insert (normalize s) "subject-blue") st) /\
  exists n, n <> normalize s /\ colorAssignments st !! n = Some "subject-blue".
Proof.
  intros Hnew Hused.
  rewrite (getSubjectColor_fresh _ _ Hnew). unfold availableColor.
  rewrite Array_find_None_intro.
  - split; [reflexivity|]. destruct (Hused "subject-blue") as (n & Hn).
    { unfold SUBJECT_COLORS. left. }
    exists n. split; [congruence|exact Hn].
  - intros c Hc. apply negb_false_iff, bool_decide_eq_true, elem_of_map_img.
    exact (Hused c Hc).
Qed.

Lemma availableColor_take (k : nat) :
  availableColor (list_to_set (take k SUBJECT_COLORS)) = paletteColor k.
Proof.
  do 10 (destruct k as [|k]; [vm_compute; reflexivity|]).
  rewrite take_ge by (simpl; lia). vm_compute. reflexivity.
Qed.

Lemma take_palette_succ (k : nat) :
  ({[paletteColor k]} ∪ list_to_set (take k SUBJECT_COLORS) : gset string) =
  list_to_set (take (S k) SUBJECT_COLORS).
Proof.
  unfold paletteColor. destruct (SUBJECT_COLORS !! k) as [c|] eqn:Hk.
  - rewrite (take_S_r _ _ _ Hk), list_to_set_app_L. simpl.
    rewrite (right_id_L ∅ (∪)). apply (comm_L (∪)).
  - apply lookup_ge_None in Hk. rewrite !take_ge by lia. simpl default.
    assert ("subject-blue" ∈ (list_to_set SUBJECT_COLORS : gset string)).
    { apply elem_of_list_to_set. left. }
    set_solver.
Qed.

Lemma NoDup_SUBJECT_COLORS : NoDup SUBJECT_COLORS.
Proof. apply (bool_decide_unpack _). vm_compute. exact I. Qed.

Lemma resolve_all_cons s (subjects : list string) st c (st1 : State) :
  getSubjectColor s st = (Returns c, st1) ->
  resolve_all (s :: subjects) st = resolve_all subjects st1.
Proof.
  intros Hrun. unfold resolve_all. simpl. unfold bind at 1 2. rewrite Hrun. reflexivity.
Qed.

(** Subjects that are new and pairwise distinct after normalization take
    the colors of the palette from the place where the table stands. *)
Lemma resolve_all_distinct (subjects : list string) :
  forall (k : nat) st,
    map_img (colorAssignments st) = (list_to_set (take k SUBJECT_COLORS) : gset string) ->
    NoDup (normalize <$> subjects) ->
    (forall s, s ∈ subjects -> colorAssignments st !! normalize s = None) ->
    exists st' : State,
      resolve_all subjects st = (Returns tt, st') /\
      forall (i : nat) s,
        subjects !! i = Some s ->
        colorAssignments st' !! normalize s = Some (paletteColor (k + i)).
Proof.
  induction subjects as [|s subjects IH]; intros k st Himg Hdistinct Hnew.
  - exists st. split; [reflexivity|]. intros i s Hi. destruct i; discriminate.
  - rewrite fmap_cons in Hdistinct. apply NoDup_cons in Hdistinct as [Hs Hdistinct].
    assert (Hsnew : colorAssignments st !! normalize s = None) by (apply Hnew; left).
    pose proof (getSubjectColor_fresh _ _ Hsnew) as Hrun.
    rewrite Himg, availableColor_take in Hrun.
    rewrite (resolve_all_cons _ _ _ _ _ Hrun).
    destruct (IH (S k) (set_colorAssignments (insert (normalize s) (paletteColor k)) st))
      as (st' & Hrest & Hcolors).
    + simpl. rewrite map_img_insert_notin_L by exact Hsnew. rewrite Himg.
      apply take_palette_succ.
    + exact Hdistinct.
    + intros s' Hs'. simpl. rewrite lookup_insert_ne.
      * apply Hnew. right. exact Hs'.
      * intros Heq. apply Hs. rewrite Heq. apply list_elem_of_fmap. exists s'. auto.
    + exists st'. split; [exact Hrest|].
      intros [|i] s' Hi; simpl in Hi.
      * injection Hi as <-. rewrite Nat.add_0_r.
        destruct (resolve_all_returns subjects
                    (set_colorAssignments (insert (normalize s) (paletteColor k)) st))
          as (st'' & Hrest' & Hkeep & _).
        rewrite Hrest in Hrest'. injection Hrest' as <-.
        apply Hkeep. simpl. apply lookup_insert_eq.
      * rewrite (Hcolors i s' Hi). f_equal. f_equal. lia.
Qed.

(** X3. On an empty table, subjects that are pairwise distinct after
    normalization are assigned the colors of the palette in its order:
    the subject at place [i] gets the color at place [i], so the first ten
    get ten different colors, and every later one gets the first color of
    the palette. *)
Theorem distinct_subjects_take_the_palette_in_order (subjects : list string) st :
  colorAssignments st = ∅ ->
  NoDup (normalize <$> subjects) ->
  exists st' : State,
    resolve_all subjects st = (Returns tt, st') /\
    (forall (i : nat) s,
       subjects !! i = Some s ->
       getSubjectColor s st' = (Returns (paletteColor i), st')) /\
    (forall i : nat, (i < 10)%nat -> SUBJECT_COLORS !! i = Some (paletteColor i)) /\
    (forall i : nat, (10 <= i)%nat -> paletteColor i = "subject-blue") /\
    (forall i j : nat, (i < 10)%nat -> (j < 10)%nat -> i <> j ->
       paletteColor i <> paletteColor j).
Proof.
  intros Hempty Hdistinct.
  assert (Hplace : forall i : nat, (i < 10)%nat -> SUBJECT_COLORS !! i = Some (paletteColor i)).
  { intros i Hi. unfold paletteColor.
    destruct (SUBJECT_COLORS !! i) as [ci|] eqn:Hci; [reflexivity|].
    apply lookup_ge_None in Hci. simpl in Hci. lia. }
  destruct (resolve_all_distinct subjects O st) as (st' & Hrun & Hcolors).
  - rewrite Hempty. rewrite map_img_empty_L. reflexivity.
  - exact Hdistinct.
  - intros s _. rewrite Hempty. apply lookup_empty.
  - exists st'. split; [exact Hrun|]. split; [|split; [exact Hplace|split]].
    + intros i s Hi. apply getSubjectColor_assigned. exact (Hcolors i s Hi).
    + intros i Hi. unfold paletteColor. rewrite (proj2 (lookup_ge_None _ _)); [reflexivity|].
      simpl. lia.
    + intros i j Hi Hj Hne Heq.
      pose proof (Hplace i Hi) as Hci. pose proof (Hplace j Hj) as Hcj.
      rewrite Heq in Hci.
      exact (Hne (NoDup_lookup _ _ _ _ NoDup_SUBJECT_COLORS Hci Hcj)).
Qed.

End Palette.

(** *** Rebuilding and reloading *)

Section Reload.
Context {host : Host}.
Implicit Types (st : State) (elements : list Element).

(** The loop of [rebuildColorAssignments] on any array: it stops at the
    first malformed element, and the table then holds what the blocks
    before that element gave. *)
Lemma forEach_recordColor_table elements st :
  exists st' : State,
    forEach recordColor elements st =
      (if well_formed elements then Returns tt else Throws "TypeError", st') /\
    (forall n : string,
       colorAssignments st' !! n =
         match colorAssignments st !! n with
         | Some c => Some c
         | None => first_color (blocks_before_malformed elements) n
         end) /\
    localStorage st' = localStorage st /\ console st' = console st.
Proof.
  revert st. induction elements as [|[b|] elements IH]; intros st.
  - exists st. split; [reflexivity|]. split; [|auto].
    intros n. destruct (colorAssignments st !! n); reflexivity.
  - simpl forEach. unfold bind at 1. unfold recordColor, bind, gets, ret, modify. simpl.
    destruct (colorAssignments st !! normalize (subject b)) as [c0|] eqn:Hhas.
    + destruct (IH st) as (st' & Hrun & Htable & Hls & Hco).
      exists st'. split; [exact Hrun|]. split; [|auto].
      intros n. rewrite Htable, first_color_cons.
      destruct (colorAssignments st !! n) eqn:Hn; [reflexivity|].
      destruct (String.eqb_spec (normalize (subject b)) n) as [<-|]; [congruence|reflexivity].
    + destruct (IH (set_colorAssignments (insert (normalize (subject b)) (color b)) st))
        as (st' & Hrun & Htable & Hls & Hco).
      exists st'. split; [exact Hrun|]. split; [|auto].
      intros n. rewrite Htable, first_color_cons. simpl.
      destruct (String.eqb_spec (normalize (subject b)) n) as [<-|Hne].
      * rewrite lookup_insert_eq, Hhas. reflexivity.
      * rewrite lookup_insert_ne by exact Hne. reflexivity.
  - exists st. split; [reflexivity|]. split; [|auto].
    intros n. destruct (colorAssignments st !! n); reflexivity.
Qed.

Lemma rebuildColorAssignments_table elements st :
  exists st' : State,
    rebuildColorAssignments elements st =
      (if well_formed elements then Returns tt else Throws "TypeError", st') /\
    (forall n : string,
       colorAssignments st' !! n = first_color (blocks_before_malformed elements) n) /\
    localStorage st' = localStorage st /\ console st' = console st.
Proof.
  unfold rebuildColorAssignments, bind at 1, modify.
  destruct (forEach_recordColor_table elements (set_colorAssignments (fun _ => ∅) st))
    as (st' & Hrun & Htable & Hls & Hco).
  exists st'. split; [exact Hrun|]. split; [|auto].
  intros n. rewrite Htable. simpl. rewrite lookup_empty. reflexivity.
Qed.

(** X4. [rebuildColorAssignments] forgets the table it starts from: from any
    two stores it ends with the same outcome and the same table, the one
    of the first block of each normalized subject (up to the first
    malformed element); so rebuilding a second time changes nothing. *)
Theorem rebuildColorAssignments_idempotent elements (st1 st2 : State) :
  exists (r : Outcome unit) (st1' st2' st1'' : State),
    rebuildColorAssignments elements st1 = (r, st1') /\
    rebuildColorAssignments elements st2 = (r, st2') /\
    colorAssignments st1' = colorAssignments st2' /\
    rebuildColorAssignments elements st1' = (r, st1'') /\
    colorAssignments st1'' = colorAssignments st1' /\
    forall n : string,
      colorAssignments st1' !! n = first_color (blocks_before_malformed elements) n.
Proof.
  destruct (rebuildColorAssignments_table elements st1) as (st1' & Hrun1 & Htable1 & _).
  destruct (rebuildColorAssignments_table elements st2) as (st2' & Hrun2 & Htable2 & _).
  destruct (rebuildColorAssignments_table elements st1') as (st1'' & Hrun3 & Htable3 & _).
  exists (if well_formed elements then Returns tt else Throws "TypeError"), st1', st2', st1''.
  repeat split; try assumption.
  - apply map_eq. intros n. rewrite Htable1, Htable2. reflexivity.
  - apply map_eq. intros n. rewrite Htable1, Htable3. reflexivity.
Qed.

Lemma loadBlocks_missing st :
  localStorage st !! STORAGE_KEY = None \/ localStorage st !! STORAGE_KEY = Some "" ->
  loadBlocks st = (Returns [], st).
Proof.
  intros [Hstored | Hstored]; unfold loadBlocks, try_catch, bind at 1, gets;
    rewrite Hstored; reflexivity.
Qed.

Lemma loadBlocks_unparsable st (text : string) :
  localStorage st !! STORAGE_KEY = Some text -> text <> "" -> JSON_parse text = None ->
  loadBlocks st = (Returns [], diagnostic "Failed to load study blocks: SyntaxError" st).
Proof.
  intros Hstored Htext Hparse. apply String.eqb_neq in Htext.
  unfold loadBlocks, try_catch, bind at 1, gets. rewrite Hstored.
  unfold truthy. rewrite Htext, Hparse. reflexivity.
Qed.

Lemma loadBlocks_parsed st (text : string) (data : JSONValue) :
  localStorage st !! STORAGE_KEY = Some text -> JSON_parse text = Some data ->
  exists st' : State,
    loadBlocks st =
      (Returns (if well_formed (array_or_empty data) then array_or_empty data else []), st') /\
    (forall n : string,
       colorAssignments st' !! n =
         first_color (blocks_before_malformed (array_or_empty data)) n) /\
    localStorage st' = localStorage st /\
    console st' =
      if well_formed (array_or_empty data) then console st
      else (console st ++ ["Failed to load study blocks: TypeError"])%list.
Proof.
  intros Hstored Hparse.
  assert (Htext : String.eqb text "" = false).
  { apply String.eqb_neq. intros ->. rewrite JSON_parse_empty in Hparse. discriminate. }
  destruct (rebuildColorAssignments_table (array_or_empty data) st)
    as (st' & Hrun & Htable & Hls & Hco).
  unfold loadBlocks, try_catch, bind at 1, gets. rewrite Hstored.
  unfold truthy. rewrite Htext, Hparse. simpl. unfold bind at 1. rewrite Hrun.
  destruct (well_formed (array_or_empty data)).
  - exists st'. auto.
  - eexists. split; [reflexivity|]. simpl. rewrite Hco. auto.
Qed.

(** What [loadBlocks] returns and the table it leaves depend on the
    persisted data and the table only, not on the diagnostics so far. *)
Lemma loadBlocks_same_data (st1 st2 : State) :
  localStorage st1 = localStorage st2 ->
  colorAssignments st1 = colorAssignments st2 ->
  fst (loadBlocks st1) = fst (loadBlocks st2) /\
  colorAssignments (snd (loadBlocks st1)) = colorAssignments (snd (loadBlocks st2)) /\
  localStorage (snd (loadBlocks st1)) = localStorage (snd (loadBlocks st2)).
Proof.
  intros Hls Hca.
  destruct (localStorage st1 !! STORAGE_KEY) as [text|] eqn:Hstored.
  - pose proof Hstored as Hstored2. rewrite Hls in Hstored2.
    destruct (String.eqb_spec text "") as [->|Htext].
    + rewrite !loadBlocks_missing by auto. auto.
    + destruct (JSON_parse text) as [data|] eqn:Hparse.
      * destruct (loadBlocks_parsed st1 text data Hstored Hparse)
          as (st1' & -> & Htable1 & Hls1 & _).
        destruct (loadBlocks_parsed st2 text data Hstored2 Hparse)
          as (st2' & -> & Htable2 & Hls2 & _).
        simpl. split; [reflexivity|]. split; [|congruence].
        apply map_eq. intros n. rewrite Htable1, Htable2. reflexivity.
      * rewrite !(loadBlocks_unparsable _ text) by assumption. simpl. auto.
  - pose proof Hstored as Hstored2. rewrite Hls in Hstored2.
    rewrite !loadBlocks_missing by auto. auto.
Qed.

Lemma well_formed_blocks (blocks : list StudyBlock) :
  well_formed (Block <$> blocks) = true /\
  blocks_before_malformed (Block <$> blocks) = blocks.
Proof.
  induction blocks as [|b blocks [IH1 IH2]]; [auto|]. simpl.
  split; [exact IH1|]. f_equal. exact IH2.
Qed.

Lemma elem_of_blocks_before_malformed elements (b : StudyBlock) :
  well_formed elements = true ->
  Block b ∈ elements <-> b ∈ blocks_before_malformed elements.
Proof.
  induction elements as [|[b0|] elements IH]; simpl; intros Hwf.
  - split; intros Hin; inversion Hin.
  - rewrite !elem_of_cons, (IH Hwf). split.
    + intros [[= ->] | Hin]; auto.
    + intros [-> | Hin]; auto.
  - discriminate.
Qed.

Lemma well_formed_lookup elements (j : nat) (e : StudyBlock) :
  well_formed elements = true ->
  elements !! j = Some (Block e) <-> blocks_before_malformed elements !! j = Some e.
Proof.
  revert j. induction elements as [|[b0|] elements IH]; simpl; intros j Hwf.
  - split; intros Hj; destruct j; discriminate Hj.
  - destruct j as [|j]; simpl; [|apply IH, Hwf]. split; intros [= ->]; reflexivity.
  - discriminate.
Qed.

(** X5. After [loadBlocks] has read an array of blocks, the subject of each
    block read resolves, without a change of the table, to the stored
    color of the first block of the array with that normalized subject,
    the one at the least index: to its own color if the blocks read that
    agree on the normalized subject agree on the color. *)
Theorem loadBlocks_then_getSubjectColor st (text : string) elements (b : StudyBlock) :
  localStorage st !! STORAGE_KEY = Some text ->
  JSON_parse text = Some (JArray elements) ->
  well_formed elements = true ->
  Block b ∈ elements ->
  exists (st' : State) (i : nat) (first : StudyBlock),
    loadBlocks st = (Returns elements, st') /\
    elements !! i = Some (Block first) /\
    normalize (subject first) = normalize (subject b) /\
    (forall (j : nat) (e : StudyBlock),
       (j < i)%nat -> elements !! j = Some (Block e) ->
       normalize (subject e) <> normalize (subject b)) /\
    getSubjectColor (subject b) st' = (Returns (color first), st') /\
    ((forall e : StudyBlock,
        Block e ∈ elements -> normalize (subject e) = normalize (subject b) ->
        color e = color b) ->
     getSubjectColor (subject b) st' = (Returns (color b), st')).
Proof.
  intros Hstored Hparse Hwf Hin.
  destruct (loadBlocks_parsed st text _ Hstored Hparse) as (st' & Hrun & Htable & _).
  simpl in Hrun, Htable. rewrite Hwf in Hrun.
  apply (elem_of_blocks_before_malformed _ _ Hwf) in Hin.
  destruct (Array_find_exists
              (fun x => String.eqb (normalize (subject x)) (normalize (subject b)))
              _ b Hin (String.eqb_refl _)) as (first & Hfind).
  destruct (Array_find_Some _ _ _ Hfind) as (i & Hi & Hsame & Hbefore).
  apply String.eqb_eq in Hsame.
  assert (Hfirst : elements !! i = Some (Block first)).
  { apply (well_formed_lookup _ _ _ Hwf). exact Hi. }
  assert (Hcolor : getSubjectColor (subject b) st' = (Returns (color first), st')).
  { apply getSubjectColor_assigned. rewrite Htable. unfold first_color. rewrite Hfind.
    reflexivity. }
  exists st', i, first. repeat split; try assumption.
  - intros j e Hj He. apply (well_formed_lookup _ _ _ Hwf) in He.
    apply String.eqb_neq. exact (Hbefore j e Hj He).
  - intros Hagree. rewrite Hcolor. rewrite (Hagree first); [reflexivity| |exact Hsame].
    apply list_elem_of_lookup. eauto.
Qed.

End Reload.

(** *** Saving, and saving then loading *)

Section Persist.
Context {host : Host} {writer : Writer}.
Implicit Types (st : State) (blocks : list StudyBlock).

Lemma saveBlocks_written blocks st :
  setItem_throws (localStorage st) STORAGE_KEY (JSON_stringify blocks) = false ->
  saveBlocks blocks st =
    (Returns tt, set_localStorage (insert STORAGE_KEY (JSON_stringify blocks)) st).
Proof.
  intros Hok. unfold saveBlocks, try_catch, setItem. rewrite Hok. reflexivity.
Qed.

Lemma saveBlocks_refused blocks st :
  setItem_throws (localStorage st) STORAGE_KEY (JSON_stringify blocks) = true ->
  saveBlocks blocks st =
    (Throws "Failed to save data. Please try again.",
     diagnostic "Failed to save study blocks: QuotaExceededError" st).
Proof.
  intros Hfull. unfold saveBlocks, try_catch, setItem. rewrite Hfull. reflexivity.
Qed.

(** X6. [saveBlocks] either returns, having replaced the text under the
    storage key by the serialized blocks and nothing else, or throws
    "Failed to save data. Please try again.", having left the persisted
    data and the table as they were and logged one diagnostic. *)
Theorem saveBlocks_outcome blocks st :
  exists (r : Outcome unit) (st' : State),
    saveBlocks blocks st = (r, st') /\
    colorAssignments st' = colorAssignments st /\
    ((r = Returns tt /\
      localStorage st' !! STORAGE_KEY = Some (JSON_stringify blocks) /\
      (forall key : string, key <> STORAGE_KEY ->
         localStorage st' !! key = localStorage st !! key) /\
      console st' = console st) \/
     (r = Throws "Failed to save data. Please try again." /\
      localStorage st' = localStorage st /\
      console st' =
        (console st ++ ["Failed to save study blocks: QuotaExceededError"])%list)).
Proof.
  destruct (setItem_throws (localStorage st) STORAGE_KEY (JSON_stringify blocks)) eqn:Hquota.
  - eexists _, _. split; [exact (saveBlocks_refused _ _ Hquota)|].
    split; [reflexivity|]. right. auto.
  - eexists _, _. split; [exact (saveBlocks_written _ _ Hquota)|].
    split; [reflexivity|]. left. simpl. split; [reflexivity|].
    split; [apply lookup_insert_eq|]. split; [|reflexivity].
    intros key Hkey. apply lookup_insert_ne. congruence.
Qed.

(** X7. When the write succeeds and the serialized blocks parse back to the
    array of these blocks, [loadBlocks] after [saveBlocks] returns the
    blocks saved, in their order, and the table is the one rebuilt from
    them. *)
Theorem saveBlocks_then_loadBlocks blocks st :
  setItem_throws (localStorage st) STORAGE_KEY (JSON_stringify blocks) = false ->
  JSON_parse (JSON_stringify blocks) = Some (JArray (Block <$> blocks)) ->
  exists st1 st2 : State,
    saveBlocks blocks st = (Returns tt, st1) /\
    loadBlocks st1 = (Returns (Block <$> blocks), st2) /\
    (forall n : string, colorAssignments st2 !! n = first_color blocks n) /\
    localStorage st2 = localStorage st1 /\
    console st2 = console st.
Proof.
  intros Hok Hparse. destruct (well_formed_blocks blocks) as [Hwf Hblocks].
  destruct (loadBlocks_parsed
              (set_localStorage (insert STORAGE_KEY (JSON_stringify blocks)) st)
              (JSON_stringify blocks) _ (lookup_insert_eq _ _ _) Hparse)
    as (st2 & Hrun & Htable & Hls & Hco).
  simpl array_or_empty in *. rewrite Hwf in Hrun, Hco. rewrite Hblocks in Htable.
  eexists _, st2. split; [exact (saveBlocks_written _ _ Hok)|].
  split; [exact Hrun|]. auto.
Qed.

(** X8. When the write fails, what was persisted before is still there:
    [loadBlocks] after the failed [saveBlocks] returns what it returned
    before it, with the same table. *)
Theorem failed_saveBlocks_keeps_persisted blocks st :
  setItem_throws (localStorage st) STORAGE_KEY (JSON_stringify blocks) = true ->
  exists st1 : State,
    saveBlocks blocks st = (Throws "Failed to save data. Please try again.", st1) /\
    localStorage st1 = localStorage st /\
    fst (loadBlocks st1) = fst (loadBlocks st) /\
    colorAssignments (snd (loadBlocks st1)) = colorAssignments (snd (loadBlocks st)).
Proof.
  intros Hfull. eexists. split; [exact (saveBlocks_refused _ _ Hfull)|].
  split; [reflexivity|].
  destruct (loadBlocks_same_data
              (diagnostic "Failed to save study blocks: QuotaExceededError" st) st
              eq_refl eq_refl) as (Hfst & Htable & _).
  auto.
Qed.

(** X9. [clearAll] removes the persisted blocks, and only them, from the
    storage and empties the table: [loadBlocks] then returns the empty
    sequence, and any subject is assigned the first color of the palette. *)
Theorem clearAll_then_loadBlocks st (s : string) :
  exists st1 : State,
    clearAll st = (Returns tt, st1) /\
    colorAssignments st1 = ∅ /\
    localStorage st1 !! STORAGE_KEY = None /\
    (forall key : string, key <> STORAGE_KEY ->
       localStorage st1 !! key = localStorage st !! key) /\
    loadBlocks st1 = (Returns [], st1) /\
    fst (getSubjectColor s st1) = Returns "subject-blue".
Proof.
  eexists. split; [reflexivity|]. simpl.
  split; [reflexivity|]. split; [apply lookup_delete_eq|].
  split; [intros key Hkey; apply lookup_delete_ne; congruence|].
  split.
  - apply loadBlocks_missing. left. simpl. apply lookup_delete_eq.
  - rewrite getSubjectColor_fresh by (simpl; apply lookup_empty).
    simpl. rewrite map_img_empty_L. vm_compute. reflexivity.
Qed.

End Persist.

(** *** More on the validator and the statistics *)

Section Acceptance.
Context {host : Host}.
Implicit Types (b existing : StudyBlock) (excludeId : option string).

Lemma overlaps_sym b existing : overlaps b existing -> overlaps existing b.
Proof.
  intros (s1 & e1 & s2 & e2 & Hs1 & He1 & Hs2 & He2 & H1 & H2).
  exists s2, e2, s1, e1. repeat split; auto; lia.
Qed.

(** [validateBlock] accepts a candidate exactly when its end does not
    compare as at or before its start and no block of the list conflicts
    with it. *)
Lemma validateBlock_None_iff b (existingBlocks : list StudyBlock) excludeId :
  validateBlock b existingBlocks excludeId = None <->
  date_le (Date_parse (end_ b)) (Date_parse (start b)) = false /\
  forall existing, existing ∈ existingBlocks -> ~ conflicts_with b excludeId existing.
Proof.
  unfold validateBlock.
  destruct (date_le (Date_parse (end_ b)) (Date_parse (start b))).
  - split; [discriminate|]. intros [? _]. discriminate.
  - match goal with |- context [Array_find ?p _] => set (test := p) end.
    destruct (Array_find test existingBlocks) as [found|] eqn:Hfind.
    + split; [discriminate|]. intros [_ Hnone]. exfalso.
      destruct (Array_find_Some _ _ _ Hfind) as (i & Hi & Htest & _).
      apply (Hnone found).
      * apply list_elem_of_lookup. eauto.
      * apply scan_test_conflicts. exact Htest.
    + split; [|reflexivity]. intros _. split; [reflexivity|].
      intros existing Hin Hconf. apply scan_test_conflicts in Hconf.
      pose proof (Array_find_None _ _ _ Hfind Hin) as Hfalse. unfold test in Hfalse.
      congruence.
Qed.

Lemma date_gt_not_le (a c : Date) : date_gt a c = true -> date_le a c = false.
Proof.
  unfold date_gt, date_lt, date_le. destruct a, c; try discriminate.
  intros Hlt. apply Z.ltb_lt in Hlt. apply Z.leb_gt. exact Hlt.
Qed.

(** X10. Of two blocks that each end after they start, one is accepted against
    the other exactly when the other is accepted against it. *)
Theorem validateBlock_symmetric (a b : StudyBlock) :
  date_gt (Date_parse (end_ a)) (Date_parse (start a)) = true ->
  date_gt (Date_parse (end_ b)) (Date_parse (start b)) = true ->
  validateBlock a [b] None = None <-> validateBlock b [a] None = None.
Proof.
  intros Ha Hb. apply date_gt_not_le in Ha, Hb.
  rewrite !validateBlock_None_iff, Ha, Hb.
  assert (Hswap : forall x y : StudyBlock,
            (forall e, e ∈ [y] -> ~ conflicts_with x None e) ->
            forall e, e ∈ [x] -> ~ conflicts_with y None e).
  { intros x y Hnone e Hin [_ Hover]. apply list_elem_of_singleton in Hin. subst e.
    apply (Hnone y); [apply list_elem_of_singleton; reflexivity|].
    split; [discriminate|]. apply overlaps_sym. exact Hover. }
  split; intros [_ Hnone]; (split; [reflexivity|]); eapply Hswap; exact Hnone.
Qed.

(** X11. A candidate accepted against a list of blocks is accepted against
    every list made of blocks of that list, whatever their order and
    number: removing or reordering blocks never turns an accepted
    candidate into a refused one. *)
Theorem validateBlock_accepted_against_part b (l l' : list StudyBlock) excludeId :
  (forall existing, existing ∈ l' -> existing ∈ l) ->
  validateBlock b l excludeId = None ->
  validateBlock b l' excludeId = None.
Proof.
  intros Hpart. rewrite !validateBlock_None_iff. intros [Hrange Hnone].
  split; [exact Hrange|]. intros existing Hin. apply Hnone, Hpart, Hin.
Qed.

End Acceptance.

Section Totals.
Context {host : Host}.
Implicit Types (blocks : list StudyBlock) (startDate endDate : Date) (s : string).

Lemma fold_add_hours_is_Some (durations : list float) (total : option float) :
  is_Some (fold_left add_hours durations total) <-> is_Some total \/ durations <> [].
Proof.
  revert total. induction durations as [|h durations IH]; intros total; simpl.
  - split; [auto|]. intros [Hsome | Hne]; [exact Hsome|contradiction].
  - rewrite IH. split; [intros _; right; discriminate|].
    intros _. left. unfold add_hours. eauto.
Qed.

(** X12. The mapping [getSubjectStats] returns has an entry for a subject
    string exactly when some block with exactly that subject starts in
    the window. *)
Theorem getSubjectStats_entries blocks startDate endDate s :
  is_Some (getSubjectStats blocks startDate endDate !! s) <->
  exists b : StudyBlock,
    b ∈ blocks /\ subject b = s /\ starts_within startDate endDate b.
Proof.
  unfold getSubjectStats. rewrite fold_addBlock_lookup, lookup_empty.
  rewrite fold_add_hours_is_Some. split.
  - intros [Hsome | Hne]; [destruct Hsome; discriminate|].
    destruct (List.filter _ blocks) as [|b matching] eqn:Hfilter; [contradiction|].
    assert (Hin : In b (List.filter
              (fun b => in_window startDate endDate b && String.eqb (subject b) s) blocks)).
    { rewrite Hfilter. left. reflexivity. }
    apply filter_In in Hin as [Hin Htest]. apply andb_true_iff in Htest as [Hwin Hsubject].
    exists b. split; [apply list_elem_of_In; exact Hin|].
    split; [apply String.eqb_eq; exact Hsubject|].
    apply in_window_starts_within. exact Hwin.
  - intros (b & Hin & Hsubject & Hwin). right.
    assert (Hfiltered : In b (List.filter
              (fun b => in_window startDate endDate b && String.eqb (subject b) s) blocks)).
    { apply filter_In. split; [apply list_elem_of_In; exact Hin|].
      apply andb_true_iff. split; [apply in_window_starts_within; exact Hwin|].
      apply String.eqb_eq. exact Hsubject. }
    intros Hnil. apply map_eq_nil in Hnil. rewrite Hnil in Hfiltered. contradiction.
Qed.

(** X13. A window whose end does not compare as at or after its start (it is
    before it, or one of the two dates is invalid) selects no block: the
    mapping is empty. *)
Theorem getSubjectStats_empty_window blocks startDate endDate :
  date_le startDate endDate = false ->
  getSubjectStats blocks startDate endDate = ∅.
Proof.
  intros Hwindow.
  assert (Hout : forall b : StudyBlock, in_window startDate endDate b = false).
  { intros b. unfold in_window, date_ge, date_le in *.
    destruct startDate as [lo|], endDate as [hi|], (Date_parse (start b)) as [t|];
      try reflexivity; try apply andb_false_r.
    apply andb_false_iff. apply Z.leb_gt in Hwindow. rewrite !Z.leb_gt. lia. }
  unfold getSubjectStats. generalize (∅ : gmap string float).
  induction blocks as [|b blocks IH]; intros stats; [reflexivity|].
  simpl. rewrite addBlock_unfold, Hout. apply IH.
Qed.

End Totals.

(** *** Time slots *)

Section TimeSlots.
Import DateUtils.




(** The slots of the default day, 6 to 22. *)
Example getTimeSlots_default :
  length <$> getTimeSlots 6 22 = Some 33%nat /\
  take 3 <$> getTimeSlots 6 22 = Some ["06:00"; "06:30"; "07:00"] /\
  (getTimeSlots 6 22 ≫= last) = Some "22:00" /\
  getTimeSlots 9 9 = Some ["09:00"] /\
  getTimeSlots 10 9 = Some [].
Proof. repeat split; vm_compute; reflexivity. Qed.


End TimeSlots.

(** *** The handlers of the component *)

Section Handlers.
Import Timetable.
Context {host : Host} {writer : Writer}.
Implicit Types (app : App) (data : Submitted) (collection : list StudyBlock).

Lemma createBlock_returns (d : BlockData) (uuid now : string) (st : State) :
  exists (c : string) (st1 : State),
    createBlock d uuid now st =
      (Returns (mkStudyBlock uuid (data_subject d) (data_description d) (data_start d)
                  (data_end d) (data_priority d) c now now), st1) /\
    colorAssignments st1 !! normalize (data_subject d) = Some c /\
    localStorage st1 = localStorage st /\ console st1 = console st.
Proof.
  destruct (getSubjectColor_returns (data_subject d) st) as (c & st1 & Hrun & Hc & _ & Hls & Hco).
  exists c, st1. unfold createBlock, bind, ret. rewrite Hrun. auto.
Qed.

Lemma handleCreateBlock_runs data (uuid now : string) app (newBlock : StudyBlock) (st1 : State) :
  createBlock (as_data data) uuid now (store app) = (Returns newBlock, st1) ->
  handleCreateBlock data uuid now app =
    match validateBlock newBlock (blocks app) None with
    | Some conflict =>
        (Returns tt,
         {| store := st1; blocks := blocks app; editingBlock := editingBlock app;
            formError := Some conflict; isFormOpen := isFormOpen app;
            isLoading := false; toasts := toasts app |})
    | None =>
        if setItem_throws (localStorage st1) STORAGE_KEY
             (JSON_stringify (blocks app ++ [newBlock])%list)
        then
          (Returns tt,
           {| store := diagnostic "Failed to save study blocks: QuotaExceededError" st1;
              blocks := blocks app; editingBlock := editingBlock app;
              formError := None; isFormOpen := isFormOpen app; isLoading := false;
              toasts :=
                (toasts app ++ [Error "Failed to save changes. Please try again."]) ++
                [Error "Failed to create study block. Please try again."] |})
        else
          (Returns tt,
           {| store :=
                set_localStorage
                  (insert STORAGE_KEY (JSON_stringify (blocks app ++ [newBlock])%list)) st1;
              blocks := (blocks app ++ [newBlock])%list; editingBlock := editingBlock app;
              formError := None; isFormOpen := false; isLoading := false;
              toasts := toasts app ++ [Success "Study block created successfully!"] |})
    end.
Proof.
  intros Hcreate.
  unfold handleCreateBlock, try_finally, try_catch, bind, gets, liftStore,
    setIsLoading, setFormError, setIsFormOpen, toast, modify, ret.
  simpl. rewrite Hcreate.
  destruct (validateBlock newBlock (blocks app) None) as [conflict|]; [reflexivity|].
  unfold saveBlocks_callback, try_catch, bind, liftStore, setBlocks, toast, modify, throw.
  simpl.
  destruct (setItem_throws (localStorage st1) STORAGE_KEY
              (JSON_stringify (blocks app ++ [newBlock])%list)) eqn:Hquota.
  - rewrite (saveBlocks_refused _ _ Hquota). reflexivity.
  - rewrite (saveBlocks_written _ _ Hquota). reflexivity.
Qed.

Lemma handleUpdateBlock_idle data (now : string) app :
  editingBlock app = None -> handleUpdateBlock data now app = (Returns tt, app).
Proof.
  intros Hnone. unfold handleUpdateBlock, bind, gets. simpl. rewrite Hnone. reflexivity.
Qed.

Lemma handleUpdateBlock_not_found data (now : string) app (editing : StudyBlock)
    (e : string) (st1 : State) :
  editingBlock app = Some editing ->
  updateBlock (blocks app) (id editing) (as_updates data) now (store app) = (Throws e, st1) ->
  handleUpdateBlock data now app =
    (Returns tt,
     {| store := st1; blocks := blocks app; editingBlock := editingBlock app;
        formError := None; isFormOpen := isFormOpen app; isLoading := false;
        toasts := toasts app ++ [Error "Failed to update study block. Please try again."] |}).
Proof.
  intros Hediting Hupdate.
  unfold handleUpdateBlock, try_finally, try_catch, bind, gets, liftStore,
    setIsLoading, setFormError, setIsFormOpen, setEditingBlock, toast, modify, ret.
  simpl. rewrite Hediting. simpl. rewrite Hupdate. rewrite Hediting. reflexivity.
Qed.

Lemma handleUpdateBlock_runs data (now : string) app (editing updatedBlock : StudyBlock)
    (st1 : State) :
  editingBlock app = Some editing ->
  updateBlock (blocks app) (id editing) (as_updates data) now (store app)
    = (Returns updatedBlock, st1) ->
  handleUpdateBlock data now app =
    match validateBlock updatedBlock (blocks app) (Some (id editing)) with
    | Some conflict =>
        (Returns tt,
         {| store := st1; blocks := blocks app; editingBlock := editingBlock app;
            formError := Some conflict; isFormOpen := isFormOpen app;
            isLoading := false; toasts := toasts app |})
    | None =>
        if setItem_throws (localStorage st1) STORAGE_KEY
             (JSON_stringify (replace_block (id editing) updatedBlock (blocks app)))
        then
          (Returns tt,
           {| store := diagnostic "Failed to save study blocks: QuotaExceededError" st1;
              blocks := blocks app; editingBlock := editingBlock app;
              formError := None; isFormOpen := isFormOpen app; isLoading := false;
              toasts :=
                (toasts app ++ [Error "Failed to save changes. Please try again."]) ++
                [Error "Failed to update study block. Please try again."] |})
        else
          (Returns tt,
           {| store :=
                set_localStorage
                  (insert STORAGE_KEY
                     (JSON_stringify (replace_block (id editing) updatedBlock (blocks app))))
                  st1;
              blocks := replace_block (id editing) updatedBlock (blocks app);
              editingBlock := None;
              formError := None; isFormOpen := false; isLoading := false;
              toasts := toasts app ++ [Success "Study block updated successfully!"] |})
    end.
Proof.
  intros Hediting Hupdate.
  unfold handleUpdateBlock, try_finally, try_catch, bind, gets, liftStore,
    setIsLoading, setFormError, setIsFormOpen, setEditingBlock, toast, modify, ret.
  simpl. rewrite Hediting. simpl. rewrite Hupdate.
  destruct (validateBlock updatedBlock (blocks app) (Some (id editing))) as [conflict|].
  - rewrite Hediting. reflexivity.
  - unfold saveBlocks_callback, try_catch, bind, liftStore, setBlocks, toast, modify, throw.
    simpl.
    destruct (setItem_throws (localStorage st1) STORAGE_KEY
                (JSON_stringify (replace_block (id editing) updatedBlock (blocks app))))
      eqn:Hquota.
    + rewrite (saveBlocks_refused _ _ Hquota). rewrite Hediting. reflexivity.
    + rewrite (saveBlocks_written _ _ Hquota). reflexivity.
Qed.

Lemma handleDeleteBlock_runs (id' : string) app :
  handleDeleteBlock id' app =
    if setItem_throws (localStorage (store app)) STORAGE_KEY
         (JSON_stringify (remove_block id' (blocks app)))
    then
      (Returns tt,
       {| store := diagnostic "Failed to save study blocks: QuotaExceededError" (store app);
          blocks := blocks app; editingBlock := editingBlock app;
          formError := formError app; isFormOpen := isFormOpen app;
          isLoading := isLoading app;
          toasts :=
            (toasts app ++ [Error "Failed to save changes. Please try again."]) ++
            [Error "Failed to delete study block. Please try again."] |})
    else
      (Returns tt,
       {| store :=
            set_localStorage
              (insert STORAGE_KEY (JSON_stringify (remove_block id' (blocks app))))
              (store app);
          blocks := remove_block id' (blocks app); editingBlock := editingBlock app;
          formError := formError app; isFormOpen := isFormOpen app;
          isLoading := isLoading app;
          toasts := toasts app ++ [Success "Study block deleted successfully!"] |}).
Proof.
  unfold handleDeleteBlock, saveBlocks_callback, try_catch, bind, gets, liftStore,
    setBlocks, toast, modify, throw, ret.
  simpl.
  destruct (setItem_throws (localStorage (store app)) STORAGE_KEY
              (JSON_stringify (remove_block id' (blocks app)))) eqn:Hquota.
  - rewrite (saveBlocks_refused _ _ Hquota). reflexivity.
  - rewrite (saveBlocks_written _ _ Hquota). reflexivity.
Qed.

Lemma overlaps_test (b existing : StudyBlock) :
  overlaps b existing <->
  date_lt (Date_parse (start b)) (Date_parse (end_ existing)) &&
  date_gt (Date_parse (end_ b)) (Date_parse (start existing)) = true.
Proof.
  pose proof (scan_test_conflicts b None existing) as Htest. simpl in Htest.
  rewrite Htest. unfold conflicts_with.
  split; [intros Hover; split; [discriminate|exact Hover] | intros [_ Hover]; exact Hover].
Qed.

Lemma overlap_free_elem collection (x y : StudyBlock) :
  overlap_free collection -> x ∈ collection -> y ∈ collection -> x <> y -> ~ overlaps x y.
Proof.
  induction collection as [|b rest IH]; intros Hfree Hx Hy Hne; [inversion Hx|].
  destruct Hfree as [Hhead Hrest].
  apply elem_of_cons in Hx as [-> | Hx]; apply elem_of_cons in Hy as [-> | Hy].
  - contradiction.
  - apply Hhead. exact Hy.
  - intros Hover. apply (Hhead x Hx). apply overlaps_sym. exact Hover.
  - apply IH; assumption.
Qed.

Lemma overlap_free_snoc collection (b : StudyBlock) :
  overlap_free collection ->
  (forall e, e ∈ collection -> ~ overlaps b e) ->
  overlap_free (collection ++ [b]).
Proof.
  induction collection as [|x rest IH]; intros Hfree Hnew; simpl.
  - split; [|exact I]. intros e He. inversion He.
  - destruct Hfree as [Hhead Hrest]. split.
    + intros e He. apply elem_of_app in He as [He | He].
      * apply Hhead. exact He.
      * apply list_elem_of_singleton in He. subst e.
        intros Hover. apply (Hnew x); [left|]. apply overlaps_sym. exact Hover.
    + apply IH; [exact Hrest|]. intros e He. apply Hnew. right. exact He.
Qed.

Lemma elem_of_remove_block (id' : string) collection (b : StudyBlock) :
  b ∈ remove_block id' collection <-> b ∈ collection /\ id b <> id'.
Proof.
  unfold remove_block. rewrite !list_elem_of_In, filter_In, negb_true_iff, String.eqb_neq.
  reflexivity.
Qed.

Lemma overlap_free_remove_block (id' : string) collection :
  overlap_free collection -> overlap_free (remove_block id' collection).
Proof.
  induction collection as [|x rest IH]; intros Hfree; [exact I|].
  destruct Hfree as [Hhead Hrest]. unfold remove_block in *. simpl.
  destruct (negb (String.eqb (id x) id')); [|apply IH; exact Hrest].
  split; [|apply IH; exact Hrest].
  intros e He. apply Hhead. apply (elem_of_remove_block id' rest e). exact He.
Qed.

Lemma unique_ids_remove_block (id' : string) collection :
  unique_ids collection -> unique_ids (remove_block id' collection).
Proof.
  unfold unique_ids. induction collection as [|x rest IH]; intros Hids; [exact Hids|].
  rewrite fmap_cons in Hids. apply NoDup_cons in Hids as [Hx Hrest].
  unfold remove_block in *. simpl.
  destruct (negb (String.eqb (id x) id')); [|apply IH; exact Hrest].
  change (NoDup (id x :: (id <$> remove_block id' rest))).
  apply NoDup_cons. split; [|apply IH; exact Hrest].
  intros Hin. apply Hx. apply list_elem_of_fmap in Hin as (e & He1 & He2).
  apply list_elem_of_fmap. exists e. split; [exact He1|].
  apply (elem_of_remove_block id' rest e). exact He2.
Qed.

Lemma ids_replace_block (id' : string) (updatedBlock : StudyBlock) collection :
  id updatedBlock = id' ->
  id <$> replace_block id' updatedBlock collection = id <$> collection.
Proof.
  intros Hid. unfold replace_block. induction collection as [|x rest IH]; [reflexivity|].
  simpl. f_equal; [|exact IH].
  destruct (String.eqb_spec (id x) id'); congruence.
Qed.

Lemma elem_of_replace_block (id' : string) (updatedBlock : StudyBlock) collection
    (e : StudyBlock) :
  e ∈ replace_block id' updatedBlock collection ->
  (e = updatedBlock /\ exists y, y ∈ collection /\ id y = id') \/
  (e ∈ collection /\ id e <> id').
Proof.
  unfold replace_block. intros He. apply list_elem_of_fmap in He as (x & -> & Hx).
  destruct (String.eqb_spec (id x) id'); eauto.
Qed.

Lemma overlap_free_replace_block (id' : string) (updatedBlock : StudyBlock) collection :
  overlap_free collection ->
  unique_ids collection ->
  (forall e, e ∈ collection -> id e <> id' -> ~ overlaps updatedBlock e) ->
  overlap_free (replace_block id' updatedBlock collection).
Proof.
  unfold unique_ids. induction collection as [|x rest IH]; intros Hfree Hids Hvalid; [exact I|].
  destruct Hfree as [Hhead Hrest].
  rewrite fmap_cons in Hids. apply NoDup_cons in Hids as [Hx Hids].
  change (replace_block id' updatedBlock (x :: rest))
    with ((if String.eqb (id x) id' then updatedBlock else x)
            :: replace_block id' updatedBlock rest).
  split.
  - intros e He. apply elem_of_replace_block in He.
    destruct (String.eqb_spec (id x) id') as [Hsame | Hother].
    + destruct He as [[_ (y & Hy & Hyid)] | [He Hne]].
      * exfalso. apply Hx. apply list_elem_of_fmap. exists y. split; [congruence|exact Hy].
      * apply Hvalid; [right; exact He|exact Hne].
    + destruct He as [[-> _] | [He Hne]].
      * intros Hover. apply (Hvalid x); [left|exact Hother|].
        apply overlaps_sym. exact Hover.
      * apply Hhead. exact He.
  - apply IH; [exact Hrest|exact Hids|].
    intros e He. apply Hvalid. right. exact He.
Qed.

(** What [validateBlock] accepted overlaps no block but, possibly, the
    excluded ones. *)
Lemma validateBlock_None_overlaps (b : StudyBlock) collection (excludeId : option string) :
  validateBlock b collection excludeId = None ->
  forall e, e ∈ collection -> Some (id e) <> excludeId -> ~ overlaps b e.
Proof.
  intros Hvalid e He Hne Hover. apply validateBlock_None_iff in Hvalid as [_ Hnone].
  apply (Hnone e He). split; assumption.
Qed.

Lemma updateBlock_returned_id collection (id' : string) (updates : PartialStudyBlock)
    (now : string) (st st1 : State) (r : StudyBlock) :
  updateBlock collection id' updates now st = (Returns r, st1) ->
  id r = id' /\ localStorage st1 = localStorage st.
Proof.
  intros Hrun. destruct (first_with_id_cases collection id') as [Hnone | (i & cur & Hfirst)].
  - rewrite (updateBlock_not_found _ _ _ _ _ Hnone) in Hrun. discriminate.
  - destruct (updateBlock_returns _ id' updates now st _ _ Hfirst)
      as (r0 & st0 & Hrun0 & Hid & _ & _ & _ & _ & _ & _ & _ & _ & Hls & _).
    rewrite Hrun in Hrun0. injection Hrun0 as <- <-. auto.
Qed.

(** X15. [handleCreateBlock] never throws.  It leaves the collection as it was
    when [validateBlock] refuses the created block (the conflict is shown
    in the form) and when the write fails (two error toasts); otherwise
    the created block is appended and the persisted text is the
    serialized new collection.  The color of the subject is assigned in
    every case. *)
Theorem handleCreateBlock_outcome data (uuid now : string) app :
  exists (newBlock : StudyBlock) (st1 : State) (app' : App),
    createBlock (as_data data) uuid now (store app) = (Returns newBlock, st1) /\
    handleCreateBlock data uuid now app = (Returns tt, app') /\
    isLoading app' = false /\
    colorAssignments (store app') = colorAssignments st1 /\
    match validateBlock newBlock (blocks app) None with
    | Some conflict =>
        blocks app' = blocks app /\ store app' = st1 /\
        formError app' = Some conflict /\ isFormOpen app' = isFormOpen app /\
        toasts app' = toasts app
    | None =>
        if setItem_throws (localStorage st1) STORAGE_KEY
             (JSON_stringify (blocks app ++ [newBlock])%list)
        then
          blocks app' = blocks app /\
          localStorage (store app') = localStorage (store app) /\
          formError app' = None /\ isFormOpen app' = isFormOpen app /\
          toasts app' =
            (toasts app ++ [Error "Failed to save changes. Please try again.";
                            Error "Failed to create study block. Please try again."])%list
        else
          blocks app' = (blocks app ++ [newBlock])%list /\
          localStorage (store app') !! STORAGE_KEY = Some (JSON_stringify (blocks app')) /\
          formError app' = None /\ isFormOpen app' = false /\
          toasts app' = (toasts app ++ [Success "Study block created successfully!"])%list
    end.
Proof.
  destruct (createBlock_returns (as_data data) uuid now (store app))
    as (c & st1 & Hcreate & _ & Hls & _).
  match type of Hcreate with _ = (Returns ?b, _) => set (newBlock := b) in * end.
  exists newBlock, st1. rewrite (handleCreateBlock_runs _ _ _ _ _ _ Hcreate).
  destruct (validateBlock newBlock (blocks app) None) as [conflict|].
  - eexists. split; [exact Hcreate|]. split; [reflexivity|]. simpl.
    repeat split; reflexivity.
  - destruct (setItem_throws (localStorage st1) STORAGE_KEY
                (JSON_stringify (blocks app ++ [newBlock])%list)).
    + eexists. split; [exact Hcreate|]. split; [reflexivity|].
      simpl. rewrite <- app_assoc. repeat split; auto.
    + eexists. split; [exact Hcreate|]. split; [reflexivity|].
      simpl. rewrite lookup_insert_eq. repeat split; reflexivity.
Qed.

(** X16. [handleCreateBlock] keeps the collection free of overlaps, and, when
    the id drawn is new, free of repeated ids. *)
Theorem handleCreateBlock_keeps_overlap_free data (uuid now : string) app :
  overlap_free (blocks app) ->
  exists app' : App,
    handleCreateBlock data uuid now app = (Returns tt, app') /\
    overlap_free (blocks app') /\
    (unique_ids (blocks app) -> uuid ∉ (id <$> blocks app) -> unique_ids (blocks app')).
Proof.
  intros Hfree.
  destruct (createBlock_returns (as_data data) uuid now (store app))
    as (c & st1 & Hcreate & _).
  rewrite (handleCreateBlock_runs _ _ _ _ _ _ Hcreate).
  match goal with |- context [validateBlock ?b (blocks app) None] =>
    destruct (validateBlock b (blocks app) None) as [conflict|] eqn:Hvalid end.
  - eexists. split; [reflexivity|]. simpl. auto.
  - match goal with |- context [setItem_throws ?s ?k ?v] =>
      destruct (setItem_throws s k v) end.
    + eexists. split; [reflexivity|]. simpl. auto.
    + eexists. split; [reflexivity|]. simpl. split.
      * apply overlap_free_snoc; [exact Hfree|].
        intros e He. apply (validateBlock_None_overlaps _ _ _ Hvalid e He). discriminate.
      * unfold unique_ids. intros Hids Hnew. rewrite fmap_app. simpl.
        apply NoDup_app. split; [exact Hids|]. split.
        -- intros x Hx Hx'. apply list_elem_of_singleton in Hx'. subst x. exact (Hnew Hx).
        -- apply NoDup_singleton.
Qed.



(** X18. [handleUpdateBlock] keeps a collection without repeated ids free of
    overlaps, and without repeated ids. *)
Theorem handleUpdateBlock_keeps_overlap_free data (now : string) app :
  overlap_free (blocks app) ->
  unique_ids (blocks app) ->
  exists app' : App,
    handleUpdateBlock data now app = (Returns tt, app') /\
    overlap_free (blocks app') /\ unique_ids (blocks app').
Proof.
  intros Hfree Hids.
  destruct (editingBlock app) as [editing|] eqn:Hediting.
  - destruct (updateBlock (blocks app) (id editing) (as_updates data) now (store app))
      as [[updatedBlock|e] st1] eqn:Hupdate.
    + rewrite (handleUpdateBlock_runs _ _ _ _ _ _ Hediting Hupdate).
      destruct (validateBlock updatedBlock (blocks app) (Some (id editing)))
        as [conflict|] eqn:Hvalid.
      * eexists. split; [reflexivity|]. simpl. auto.
      * destruct (setItem_throws (localStorage st1) STORAGE_KEY
                    (JSON_stringify (replace_block (id editing) updatedBlock (blocks app)))).
        -- eexists. split; [reflexivity|]. simpl. auto.
        -- eexists. split; [reflexivity|]. simpl.
           destruct (updateBlock_returned_id _ _ _ _ _ _ _ Hupdate) as [Hid _].
           split.
           ++ apply overlap_free_replace_block; [exact Hfree|exact Hids|].
              intros e He Hne. apply (validateBlock_None_overlaps _ _ _ Hvalid e He).
              congruence.
           ++ unfold unique_ids. rewrite (ids_replace_block _ _ _ Hid). exact Hids.
    + rewrite (handleUpdateBlock_not_found _ _ _ _ _ _ Hediting Hupdate).
      eexists. split; [reflexivity|]. simpl. auto.
  - rewrite (handleUpdateBlock_idle _ _ _ Hediting). eexists. split; [reflexivity|]. auto.
Qed.

(** X19. [handleDeleteBlock] never throws and never touches the color
    table.  When the write of the collection without the blocks of that
    id is refused, the collection and the persisted data stay as they
    were and two errors are shown; when it is accepted, the blocks with
    the id are gone, the others stay in their order, the persisted text
    is the serialized new collection and the success is shown.  Either
    way the collection stays free of overlaps and of repeated ids. *)
Theorem handleDeleteBlock_outcome (id' : string) app :
  exists app' : App,
    handleDeleteBlock id' app = (Returns tt, app') /\
    colorAssignments (store app') = colorAssignments (store app) /\
    (if setItem_throws (localStorage (store app)) STORAGE_KEY
          (JSON_stringify (remove_block id' (blocks app)))
     then
       blocks app' = blocks app /\
       localStorage (store app') = localStorage (store app) /\
       toasts app' =
         (toasts app ++ [Error "Failed to save changes. Please try again.";
                         Error "Failed to delete study block. Please try again."])%list
     else
       blocks app' = remove_block id' (blocks app) /\
       (forall b : StudyBlock, b ∈ blocks app' <-> b ∈ blocks app /\ id b <> id') /\
       blocks app' `sublist_of` blocks app /\
       localStorage (store app') = <[STORAGE_KEY := JSON_stringify (blocks app')]>
                                     (localStorage (store app)) /\
       toasts app' = (toasts app ++ [Success "Study block deleted successfully!"])%list) /\
    editingBlock app' = editingBlock app /\
    (overlap_free (blocks app) -> overlap_free (blocks app')) /\
    (unique_ids (blocks app) -> unique_ids (blocks app')).
Proof.
  rewrite handleDeleteBlock_runs.
  destruct (setItem_throws (localStorage (store app)) STORAGE_KEY
              (JSON_stringify (remove_block id' (blocks app)))).
  - eexists. split; [reflexivity|]. simpl. rewrite <- app_assoc. auto 10.
  - eexists. split; [reflexivity|]. simpl. split; [reflexivity|]. split; [|split; [|split]].
    + split; [reflexivity|]. split; [apply elem_of_remove_block|].
      split; [|split; reflexivity].
      unfold remove_block. induction (blocks app) as [|x rest IH]; simpl; [constructor|].
      destruct (negb (String.eqb (id x) id')); [apply sublist_skip | apply sublist_cons];
        exact IH.
    + reflexivity.
    + apply overlap_free_remove_block.
    + apply unique_ids_remove_block.
Qed.

(** X20. A block of a collection free of overlaps that ends after it starts is
    accepted against the collection when its own id is excluded: saving an
    edit that leaves the times alone is never refused. *)
Theorem validateBlock_accepts_stored_block collection (b : StudyBlock) :
  overlap_free collection ->
  b ∈ collection ->
  date_gt (Date_parse (end_ b)) (Date_parse (start b)) = true ->
  validateBlock b collection (Some (id b)) = None.
Proof.
  intros Hfree Hb Hrange. apply validateBlock_None_iff.
  split; [apply date_gt_not_le; exact Hrange|].
  intros e He [Hne Hover].
  apply (overlap_free_elem _ b e Hfree Hb He); [congruence|exact Hover].
Qed.

Lemma as_blocks_well_formed (elements : list Element) :
  well_formed elements = true -> Block <$> as_blocks elements = elements.
Proof.
  induction elements as [|[b|] elements IH]; simpl; intros Hwf;
    [reflexivity| |discriminate].
  f_equal. exact (IH Hwf).
Qed.

(** [loadBlocks] returns blocks only. *)
Lemma loadBlocks_returned_blocks (st : State) :
  exists (elements : list Element) (st' : State),
    loadBlocks st = (Returns elements, st') /\ Block <$> as_blocks elements = elements.
Proof.
  destruct (localStorage st !! STORAGE_KEY) as [text|] eqn:Hstored.
  - destruct (String.eqb_spec text "") as [->|Htext].
    + rewrite loadBlocks_missing by auto. eauto.
    + destruct (JSON_parse text) as [data|] eqn:Hparse.
      * destruct (loadBlocks_parsed st text data Hstored Hparse) as (st' & -> & _).
        destruct (well_formed (array_or_empty data)) eqn:Hwf.
        -- eexists _, _. split; [reflexivity|]. apply as_blocks_well_formed. exact Hwf.
        -- eauto.
      * rewrite (loadBlocks_unparsable _ text) by assumption. eauto.
  - rewrite loadBlocks_missing by auto. eauto.
Qed.

(** X21. The effect run on mount never throws and never shows its error toast:
    the collection becomes exactly what [loadBlocks] returns, the store
    what [loadBlocks] leaves, and nothing else changes. *)
Theorem mount_outcome app :
  exists app' : App,
    mount app = (Returns tt, app') /\
    fst (loadBlocks (store app)) = Returns (Block <$> blocks app') /\
    store app' = snd (loadBlocks (store app)) /\
    toasts app' = toasts app /\
    editingBlock app' = editingBlock app /\ formError app' = formError app /\
    isFormOpen app' = isFormOpen app /\ isLoading app' = isLoading app.
Proof.
  destruct (loadBlocks_returned_blocks (store app)) as (elements & st' & Hload & Hblocks).
  unfold mount, try_catch, bind, liftStore, setBlocks, modify. rewrite Hload.
  eexists. split; [reflexivity|]. simpl. rewrite Hblocks. auto 10.
Qed.
End Handlers.

(** *** The added properties on examples *)

Section MoreExamples.
Import Timetable.
#[local] Existing Instance Example.host.
#[local] Existing Instance Demo.writer.

Lemma math_assigned_only_red (n : string) :
  colorAssignments Example.math_assigned !! n <> Some "subject-blue".
Proof.
  intros Hn. unfold Example.math_assigned in Hn. simpl in Hn.
  apply lookup_singleton_Some in Hn as [_ Hn]. discriminate.
Qed.

Lemma getSubjectColor_first_free_color_witness :
  colorAssignments Example.math_assigned !! normalize "Physics" = None /\
  "subject-blue" ∈ SUBJECT_COLORS /\
  (forall n, colorAssignments Example.math_assigned !! n <> Some "subject-blue") /\
  exists (c : string) (i : nat),
    getSubjectColor "Physics" Example.math_assigned =
      (Returns c, set_colorAssignments (insert (normalize "Physics") c) Example.math_assigned) /\
    SUBJECT_COLORS !! i = Some c /\
    (forall n, colorAssignments Example.math_assigned !! n <> Some c) /\
    (forall (j : nat) (earlier : string),
       (j < i)%nat -> SUBJECT_COLORS !! j = Some earlier ->
       exists n, colorAssignments Example.math_assigned !! n = Some earlier).
Proof.
  split; [reflexivity|]. split; [left|]. split; [exact math_assigned_only_red|].
  apply (getSubjectColor_first_free_color "Physics" Example.math_assigned "subject-blue").
  - reflexivity.
  - left.
  - exact math_assigned_only_red.
Defined.

Lemma all_colors_used_all (c : string) :
  c ∈ SUBJECT_COLORS -> exists n, colorAssignments Demo.all_colors_used !! n = Some c.
Proof.
  intros Hc. apply (elem_of_map_img (SA := gset string)).
  unfold SUBJECT_COLORS in Hc.
  repeat (apply elem_of_cons in Hc as [-> | Hc];
          [apply (bool_decide_unpack _); vm_compute; exact I|]).
  inversion Hc.
Qed.

Lemma getSubjectColor_palette_exhausted_witness :
  colorAssignments Demo.all_colors_used !! normalize "Latin" = None /\
  (forall c, c ∈ SUBJECT_COLORS ->
     exists n, colorAssignments Demo.all_colors_used !! n = Some c) /\
  getSubjectColor "Latin" Demo.all_colors_used =
    (Returns "subject-blue",
     set_colorAssignments (insert (normalize "Latin") "subject-blue") Demo.all_colors_used) /\
  exists n, n <> normalize "Latin" /\
    colorAssignments Demo.all_colors_used !! n = Some "subject-blue".
Proof.
  split; [reflexivity|]. split; [exact all_colors_used_all|].
  apply (getSubjectColor_palette_exhausted "Latin" Demo.all_colors_used).
  - reflexivity.
  - exact all_colors_used_all.
Defined.

Lemma three_subjects_distinct : NoDup (normalize <$> ["Math"; " Physics"; "art "]).
Proof. apply (bool_decide_unpack _). vm_compute. exact I. Qed.

Lemma distinct_subjects_take_the_palette_in_order_witness :
  colorAssignments Example.fresh = ∅ /\
  NoDup (normalize <$> ["Math"; " Physics"; "art "]) /\
  exists st' : State,
    resolve_all ["Math"; " Physics"; "art "] Example.fresh = (Returns tt, st') /\
    (forall (i : nat) s,
       ["Math"; " Physics"; "art "] !! i = Some s ->
       getSubjectColor s st' = (Returns (paletteColor i), st')) /\
    (forall i : nat, (i < 10)%nat -> SUBJECT_COLORS !! i = Some (paletteColor i)) /\
    (forall i : nat, (10 <= i)%nat -> paletteColor i = "subject-blue") /\
    (forall i j : nat, (i < 10)%nat -> (j < 10)%nat -> i <> j ->
       paletteColor i <> paletteColor j).
Proof.
  split; [reflexivity|]. split; [exact three_subjects_distinct|].
  apply (distinct_subjects_take_the_palette_in_order ["Math"; " Physics"; "art "] Example.fresh).
  - reflexivity.
  - exact three_subjects_distinct.
Defined.

Lemma saveBlocks_then_loadBlocks_witness :
  setItem_throws (localStorage Example.fresh) STORAGE_KEY
    (JSON_stringify [Example.math; Example.physics]) = false /\
  JSON_parse (JSON_stringify [Example.math; Example.physics]) =
    Some (JArray (Block <$> [Example.math; Example.physics])) /\
  exists st1 st2 : State,
    saveBlocks [Example.math; Example.physics] Example.fresh = (Returns tt, st1) /\
    loadBlocks st1 = (Returns (Block <$> [Example.math; Example.physics]), st2) /\
    (forall n : string,
       colorAssignments st2 !! n = first_color [Example.math; Example.physics] n) /\
    localStorage st2 = localStorage st1 /\
    console st2 = console Example.fresh.
Proof.
  split; [reflexivity|]. split; [reflexivity|].
  apply (saveBlocks_then_loadBlocks [Example.math; Example.physics] Example.fresh);
    reflexivity.
Defined.

Lemma failed_saveBlocks_keeps_persisted_witness :
  setItem_throws (localStorage (Example.persisted "[math,physics]")) STORAGE_KEY
    (JSON_stringify [Example.math; Example.physics; Example.chemistry]) = true /\
  exists st1 : State,
    saveBlocks [Example.math; Example.physics; Example.chemistry]
      (Example.persisted "[math,physics]")
      = (Throws "Failed to save data. Please try again.", st1) /\
    localStorage st1 = localStorage (Example.persisted "[math,physics]") /\
    fst (loadBlocks st1) = fst (loadBlocks (Example.persisted "[math,physics]")) /\
    colorAssignments (snd (loadBlocks st1)) =
      colorAssignments (snd (loadBlocks (Example.persisted "[math,physics]"))).
Proof.
  split; [reflexivity|].
  apply (failed_saveBlocks_keeps_persisted
           [Example.math; Example.physics; Example.chemistry]
           (Example.persisted "[math,physics]")).
  reflexivity.
Defined.

Lemma validateBlock_symmetric_witness :
  date_gt (Date_parse (end_ Example.math)) (Date_parse (start Example.math)) = true /\
  date_gt (Date_parse (end_ Example.physics)) (Date_parse (start Example.physics)) = true /\
  (validateBlock Example.math [Example.physics] None = None <->
   validateBlock Example.physics [Example.math] None = None).
Proof.
  split; [reflexivity|]. split; [reflexivity|].
  apply (validateBlock_symmetric Example.math Example.physics); reflexivity.
Defined.

Lemma part_of_two :
  forall existing : StudyBlock,
    existing ∈ [Example.backwards; Example.math; Example.math] ->
    existing ∈ [Example.math; Example.backwards].
Proof.
  intros existing Hin.
  repeat (apply elem_of_cons in Hin as [-> | Hin]; [set_solver|]). inversion Hin.
Qed.

Lemma validateBlock_accepted_against_part_witness :
  (forall existing : StudyBlock,
     existing ∈ [Example.backwards; Example.math; Example.math] ->
     existing ∈ [Example.math; Example.backwards]) /\
  validateBlock Example.chemistry [Example.math; Example.backwards] None = None /\
  validateBlock Example.chemistry [Example.backwards; Example.math; Example.math] None = None.
Proof.
  split; [exact part_of_two|]. split; [reflexivity|].
  apply (validateBlock_accepted_against_part Example.chemistry
           [Example.math; Example.backwards]
           [Example.backwards; Example.math; Example.math] None).
  - exact part_of_two.
  - reflexivity.
Defined.

Lemma getSubjectStats_empty_window_witness :
  date_le (Some 39600000) (Some 32400000) = false /\
  getSubjectStats [Example.math; Example.physics] (Some 39600000) (Some 32400000) = ∅.
Proof.
  split; [reflexivity|].
  apply (getSubjectStats_empty_window [Example.math; Example.physics]
           (Some 39600000) (Some 32400000)).
  reflexivity.
Defined.

Lemma tidy_overlap_free : overlap_free (blocks Demo.tidy).
Proof.
  simpl. split; [|split; [|exact I]]; intros e He.
  - apply list_elem_of_singleton in He. subst e. intros Hover.
    apply overlaps_test in Hover. discriminate Hover.
  - inversion He.
Qed.

Lemma tidy_unique_ids : unique_ids (blocks Demo.tidy).
Proof. apply (bool_decide_unpack _). vm_compute. exact I. Qed.

Lemma handleCreateBlock_keeps_overlap_free_witness :
  overlap_free (blocks Demo.tidy) /\
  exists app' : App,
    handleCreateBlock Demo.physics_form "u1" "t1" Demo.tidy = (Returns tt, app') /\
    overlap_free (blocks app') /\
    (unique_ids (blocks Demo.tidy) -> "u1" ∉ (id <$> blocks Demo.tidy) ->
     unique_ids (blocks app')).
Proof.
  split; [exact tidy_overlap_free|].
  apply (handleCreateBlock_keeps_overlap_free Demo.physics_form "u1" "t1" Demo.tidy).
  exact tidy_overlap_free.
Defined.

Lemma handleUpdateBlock_keeps_overlap_free_witness :
  overlap_free (blocks Demo.tidy) /\
  unique_ids (blocks Demo.tidy) /\
  exists app' : App,
    handleUpdateBlock Demo.earlier_form "t2" Demo.tidy = (Returns tt, app') /\
    overlap_free (blocks app') /\ unique_ids (blocks app').
Proof.
  split; [exact tidy_overlap_free|]. split; [exact tidy_unique_ids|].
  apply (handleUpdateBlock_keeps_overlap_free Demo.earlier_form "t2" Demo.tidy).
  - exact tidy_overlap_free.
  - exact tidy_unique_ids.
Defined.

Lemma chemistry_stored : Example.chemistry ∈ blocks Demo.tidy.
Proof. right. left. Qed.

Lemma validateBlock_accepts_stored_block_witness :
  overlap_free (blocks Demo.tidy) /\
  Example.chemistry ∈ blocks Demo.tidy /\
  date_gt (Date_parse (end_ Example.chemistry)) (Date_parse (start Example.chemistry)) = true /\
  validateBlock Example.chemistry (blocks Demo.tidy) (Some (id Example.chemistry)) = None.
Proof.
  split; [exact tidy_overlap_free|]. split; [exact chemistry_stored|].
  split; [reflexivity|].
  apply (validateBlock_accepts_stored_block (blocks Demo.tidy) Example.chemistry).
  - exact tidy_overlap_free.
  - exact chemistry_stored.
  - reflexivity.
Defined.

(** The handlers at work: Physics at 11:00 is appended and persisted; on
    the edit, Math moves to 08:00, keeps its id, its color and its creation
    date, and takes the new description; deleting [math] leaves
    [chemistry]. *)
Example handlers_at_work :
  blocks (snd (handleCreateBlock Demo.physics_form "u1" "t1" Demo.tidy)) =
    [Example.math; Example.chemistry;
     mkStudyBlock "u1" "Physics" None "39600000" "43200000" normal "subject-blue" "t1" "t1"] /\
  blocks (snd (handleUpdateBlock Demo.earlier_form "t2" Demo.tidy)) =
    [mkStudyBlock "a" "Math" (Some "algebra") "28800000" "32400000" high "subject-red" "1" "t2";
     Example.chemistry] /\
  blocks (snd (handleDeleteBlock "a" Demo.tidy)) = [Example.chemistry] /\
  toasts (snd (handleDeleteBlock "a" Demo.tidy)) =
    [Success "Study block deleted successfully!"].
Proof. repeat split; vm_compute; reflexivity. Qed.

(** A block that overlaps [math] is refused by [handleCreateBlock]: the
    collection stays, the conflict is shown, and the subject has got its
    color all the same. *)
Example handleCreateBlock_refuses :
  blocks (snd (handleCreateBlock
                 (mkSubmitted "Physics" None "34200000" "39600000" high) "u1" "t1" Demo.tidy))
    = blocks Demo.tidy /\
  (conflictingBlock <$>
     formError (snd (handleCreateBlock
                       (mkSubmitted "Physics" None "34200000" "39600000" high)
                       "u1" "t1" Demo.tidy)))
    = Some Example.math /\
  colorAssignments
    (store (snd (handleCreateBlock
                   (mkSubmitted "Physics" None "34200000" "39600000" high)
                   "u1" "t1" Demo.tidy))) !! "physics"
    = Some "subject-blue".
Proof. repeat split; vm_compute; reflexivity. Qed.

End MoreExamples.

(** *** Loading an array in which a subject comes twice *)

Section ReloadExamples.
#[local] Existing Instance Demo.host.

Lemma shouted_math_read : Block Demo.shouted_math ∈ Demo.three_read.
Proof. right. right. left. Qed.

Lemma loadBlocks_then_getSubjectColor_witness :
  localStorage (Example.persisted "[physics,math,MATH]") !! STORAGE_KEY
    = Some "[physics,math,MATH]" /\
  JSON_parse "[physics,math,MATH]" = Some (JArray Demo.three_read) /\
  well_formed Demo.three_read = true /\
  Block Demo.shouted_math ∈ Demo.three_read /\
  exists (st' : State) (i : nat) (first : StudyBlock),
    loadBlocks (Example.persisted "[physics,math,MATH]") = (Returns Demo.three_read, st') /\
    Demo.three_read !! i = Some (Block first) /\
    normalize (subject first) = normalize (subject Demo.shouted_math) /\
    (forall (j : nat) (e : StudyBlock),
       (j < i)%nat -> Demo.three_read !! j = Some (Block e) ->
       normalize (subject e) <> normalize (subject Demo.shouted_math)) /\
    getSubjectColor (subject Demo.shouted_math) st' = (Returns (color first), st') /\
    ((forall e : StudyBlock,
        Block e ∈ Demo.three_read ->
        normalize (subject e) = normalize (subject Demo.shouted_math) ->
        color e = color Demo.shouted_math) ->
     getSubjectColor (subject Demo.shouted_math) st' =
       (Returns (color Demo.shouted_math), st')).
Proof.
  split; [reflexivity|]. split; [reflexivity|]. split; [reflexivity|].
  split; [exact shouted_math_read|].
  apply (loadBlocks_then_getSubjectColor (Example.persisted "[physics,math,MATH]")
           "[physics,math,MATH]" Demo.three_read Demo.shouted_math).
  - reflexivity.
  - reflexivity.
  - reflexivity.
  - exact shouted_math_read.
Defined.

(** [Example.math] is read before [Demo.shouted_math]: after the load,
    "MATH " has the red of the first and not the yellow of the second. *)
Example loadBlocks_first_block_wins :
  exists st' : State,
    loadBlocks (Example.persisted "[physics,math,MATH]") = (Returns Demo.three_read, st') /\
    colorAssignments st' !! "math" = Some "subject-red" /\
    getSubjectColor "MATH " st' = (Returns "subject-red", st').
Proof.
  eexists. split; [vm_compute; reflexivity|]. split; vm_compute; reflexivity.
Qed.

End ReloadExamples.
